(** * OpenDrift: the ADIOS oil record ([opendrift/models/openoil/adios/oil.py])

    A shallow embedding of the two classes of the module, [ThinOil] and
    [OpendriftOil], of the guard [__require_gnome_oil__] and of the
    vapour-pressure correlation, together with the properties the
    specification states about them.

    Conventions of the embedding.
    - A Python object is its class and its instance dictionary (a finite map
      from attribute names to values); reading an attribute that was never
      assigned raises [AttributeError].
    - A method is a computation in a state-and-exception monad over the
      receiver [self].
    - Python floats and NumPy float64 values are binary64 numbers
      ([PrimFloat.float]); NumPy arrays are 0- or 1-dimensional lists of them.
    - The collaborators that live outside the module (the ADIOS parser, the
      GNOME conversion, the density and viscosity models, the surface-tension
      correlation, [np.log] and [np.exp]) are the fields of two interfaces,
      over which every definition and theorem is parametric.
    - Logging and the diagnostic [pp(o)] of the constructor write to the
      console only and are left out. *)

From Stdlib Require Import Floats ZArith Bool.
From stdpp Require Import base option list gmap strings.

#[local] Set Warnings "-inexact-float,-register-all".
#[local] Open Scope string_scope.
#[local] Open Scope list_scope.

(** ** Python values *)

(** JSON-like values, as [json.loads] produces them. *)
Inductive json : Type :=
  | JNull
  | JBool (b : bool)
  | JInt (z : Z)
  | JFloat (x : float)
  | JStr (s : string)
  | JArr (l : list json)
  | JObj (m : gmap string json).

(** A value of the flattened GNOME dictionary: a number or a sequence of
    numbers, one per pseudo-component. *)
Inductive gval : Type :=
  | GScalar (x : float)
  | GSeq (l : list float).

(** NumPy arrays of float64, of dimension 0 or 1. *)
Inductive ndarray : Type :=
  | Arr0 (x : float)
  | Arr1 (l : list float).

(** ** Exceptions *)

(** [NotFullOil] is the module's own exception class; [raise NotFullOil()]
    passes no argument.  The other kinds are the built-in ones the module can
    meet, and [CollaboratorError] is whatever a collaborator raises. *)
Inductive exn : Type :=
  | NotFullOil
  | AttributeError (attr : string)
  | KeyError (key : string)
  | TypeError
  | ValueError
  | CollaboratorError (msg : string).

Inductive result (A : Type) : Type :=
  | Return (a : A)
  | Raise (e : exn).
Arguments Return {A} a.
Arguments Raise {A} e.

#[global] Instance result_ret : MRet result := λ A a, Return a.
#[global] Instance result_bind : MBind result := λ A B k r,
  match r with
  | Return a => k a
  | Raise e => Raise e
  end.

Definition is_Return {A} (r : result A) : bool :=
  match r with Return _ => true | Raise _ => false end.

(** The errors the specification calls structural: a key that is missing, or
    a value or a call of the wrong shape. *)
Definition structural (e : exn) : bool :=
  match e with
  | KeyError _ | TypeError => true
  | _ => false
  end.

(** ** Strings *)

(** [s.startswith(p)] *)
Fixpoint str_startswith (p s : string) : bool :=
  match p, s with
  | EmptyString, _ => true
  | String a p', String b s' => bool_decide (a = b) && str_startswith p' s'
  | String _ _, EmptyString => false
  end.

(** [sub in s] on two strings: [sub] occurs in [s] at some position. *)
Fixpoint str_contains (sub s : string) : bool :=
  str_startswith sub s ||
  match s with
  | EmptyString => false
  | String _ s' => str_contains sub s'
  end.

(** ** Subscripts, membership and calls *)

(** [d[key]] for a string [key]: a dictionary is looked up, and raises
    [KeyError] when the key is missing; no other JSON value can be indexed by
    a string. *)
Definition subscript (d : json) (key : string) : result json :=
  match d with
  | JObj m =>
      match m !! key with
      | Some v => Return v
      | None => Raise (KeyError key)
      end
  | _ => Raise TypeError
  end.

(** [sub in v] for a string [sub]: substring test on a string, membership
    test on a list, key test on a dictionary; the other values are not
    containers. *)
Definition py_in (sub : string) (v : json) : result bool :=
  match v with
  | JStr s => Return (str_contains sub s)
  | JArr l =>
      Return (existsb (λ x, match x with
                            | JStr s => bool_decide (s = sub)
                            | _ => false
                            end) l)
  | JObj m => Return (bool_decide (sub ∈ dom m))
  | _ => Raise TypeError
  end.

(** [**v] in a call: [v] has to be a mapping. *)
Definition kwargs_of (v : json) : result (gmap string json) :=
  match v with
  | JObj m => Return m
  | _ => Raise TypeError
  end.

(** Binding of the positional arguments [args] and the keyword arguments
    [kwargs] of a call to the parameters [params] of the callee, none of
    which has a default: the result lists the values in the order of the
    parameters.  [TypeError] is raised when there are too many positional
    arguments, when a keyword names no parameter or one already given by
    position, and when a parameter is left without a value. *)
Definition bind_args (params : list string) (args : list json)
    (kwargs : gmap string json) : result (list json) :=
  if bool_decide (length params < length args) then Raise TypeError
  else
    let named := drop (length args) params in
    if bool_decide (dom kwargs ⊆ list_to_set named) then
      match mapM (λ p, kwargs !! p) named with
      | Some vs => Return (args ++ vs)
      | None => Raise TypeError
      end
    else Raise TypeError.

(** ** Collaborators *)

(** NumPy's elementwise logarithm and exponential on float64. *)
Class Numpy : Type := {
  np_log : float → float;
  np_exp : float → float;
}.

(** The ADIOS collaborators the module imports. *)
Class Adios : Type := {
  (** the parsed domain object, [models.oil.oil.Oil] *)
  AdiosOil : Type;
  (** [AdiosOil.from_py_json(attributes)] *)
  from_py_json : json → result AdiosOil;
  (** [oil.metadata.gnome_suitable] *)
  metadata_gnome_suitable : AdiosOil → bool;
  (** [gnome_oil.make_gnome_oil(oil)] *)
  make_gnome_oil : AdiosOil → result (gmap string gval);
  (** [physical_properties.Density(oil).at_temp(t, unit)] *)
  Density_at_temp : AdiosOil → float → string → result float;
  (** [physical_properties.KinematicViscosity(oil).at_temp(t, temp_units=unit)] *)
  KinematicViscosity_at_temp : AdiosOil → float → string → result float;
  (** [util.estimations.oil_water_surface_tension_from_api(api)] *)
  oil_water_surface_tension_from_api : gval → result float;
}.

Section Model.
Context {NP : Numpy} {AD : Adios}.

(** ** Objects *)

(** What an attribute can hold: a JSON-like value (among them [None]), the
    parsed oil, or the GNOME dictionary. *)
Inductive pyval : Type :=
  | VJson (j : json)
  | VOil (o : AdiosOil)
  | VDict (g : gmap string gval).

(** The two classes of the module; [class OpendriftOil(ThinOil)]. *)
Inductive pyclass : Type :=
  | ThinOil
  | OpendriftOil.

Definition issubclass (c base : pyclass) : bool :=
  match c, base with
  | ThinOil, OpendriftOil => false
  | _, _ => true
  end.

(** An object: its class and its instance dictionary. *)
Record instance : Type := Instance {
  py_class : pyclass;
  py_dict : gmap string pyval;
}.

Definition isinstance (self : instance) (c : pyclass) : bool :=
  issubclass (py_class self) c.

(** [hasattr(self, attr)].  The classes define no class-level attribute of
    the names used here (an annotation such as [gnome_oil: dict] creates
    none), so an attribute exists exactly when the instance dictionary has
    it. *)
Definition hasattr (self : instance) (attr : string) : bool :=
  bool_decide (is_Some (py_dict self !! attr)).

(** ** Methods: state and exceptions over [self] *)

Definition M (A : Type) : Type := instance → result A * instance.

#[global] Instance M_ret : MRet M := λ A a self, (Return a, self).
#[global] Instance M_bind : MBind M := λ A B k m self,
  match m self with
  | (Return a, self') => k a self'
  | (Raise e, self') => (Raise e, self')
  end.
#[global] Instance M_fmap : FMap M := λ A B f m, x ← m; mret (f x).

Definition raise {A} (e : exn) : M A := λ self, (Raise e, self).

(** A computation that does not touch [self]. *)
Definition lift {A} (r : result A) : M A := λ self, (r, self).

(** [self.attr] *)
Definition getattr (attr : string) : M pyval := λ self,
  match py_dict self !! attr with
  | Some v => (Return v, self)
  | None => (Raise (AttributeError attr), self)
  end.

(** [self.attr = v] *)
Definition setattr (attr : string) (v : pyval) : M unit := λ self,
  (Return tt, Instance (py_class self) (<[attr := v]> (py_dict self))).

(** [c(...)]: a fresh object of class [c], initialised by [init]; the
    object is returned only if [init] does not raise. *)
Definition new (c : pyclass) (init : M unit) : result instance :=
  match init (Instance c ∅) with
  | (Return _, self) => Return self
  | (Raise e, _) => Raise e
  end.

(** [copy.deepcopy]: values of the embedding are immutable, a copy is the
    value itself. *)
Definition deepcopy {A} (x : A) : A := x.

(** ** ThinOil *)

Definition ThinOil_params : list string :=
  ["_id"; "_type"; "name"; "API"; "gnome_suitable"; "labels"; "location";
   "model_completeness"; "product_type"; "sample_date"].

(** The attributes the class declares. *)
Definition ThinOil_attributes : list string :=
  ["id"; "type"; "name"; "API"; "gnome_suitable"; "labels"; "location";
   "model_completeness"; "product_type"; "sample_date"].

Definition ThinOil_init (_id _type name API gnome_suitable labels location
    model_completeness product_type sample_date : json) : M unit :=
  setattr "id" (VJson _id);;
  setattr "type" (VJson _type);;
  setattr "name" (VJson name);;
  setattr "API" (VJson API);;
  setattr "gnome_suitable" (VJson gnome_suitable);;
  setattr "labels" (VJson labels);;
  setattr "location" (VJson location);;
  setattr "model_completeness" (VJson model_completeness);;
  setattr "product_type" (VJson product_type);;
  setattr "sample_date" (VJson sample_date).

(** The call [ThinOil(...)] with the given positional and keyword arguments. *)
Definition ThinOil_call (args : list json) (kwargs : gmap string json)
    : result instance :=
  vs ← bind_args ThinOil_params args kwargs;
  match vs with
  | [a0; a1; a2; a3; a4; a5; a6; a7; a8; a9] =>
      new ThinOil (ThinOil_init a0 a1 a2 a3 a4 a5 a6 a7 a8 a9)
  | _ => Raise TypeError
  end.

(** [ThinOil.from_json(d)] *)
Definition ThinOil_from_json (d : json) : result instance :=
  _id ← subscript d "_id";
  _type ← subscript d "type";
  attributes ← subscript d "attributes";
  metadata ← subscript attributes "metadata";
  kwargs ← kwargs_of metadata;
  ThinOil_call [_id; _type] kwargs.

(** [self.is_generic()]: ['GENERIC' in self.name] *)
Definition is_generic : M bool :=
  name ← getattr "name";
  match name with
  | VJson j => lift (py_in "GENERIC" j)
  | VDict g => mret (bool_decide ("GENERIC" ∈ dom g))
  | VOil _ => raise TypeError
  end.

(** ** OpendriftOil *)

(** [self.oil], which has to be the parsed oil to be of use. *)
Definition getattr_oil : M AdiosOil :=
  v ← getattr "oil";
  match v with
  | VOil o => mret o
  | _ => raise TypeError
  end.

(** [OpendriftOil.__init__(self, o)] *)
Definition OpendriftOil_init (o : json) : M unit :=
  setattr "data" (VJson o);;
  data ← lift (subscript o "data");
  meta ← lift (attributes ← subscript data "attributes";
               subscript attributes "metadata");
  _id ← lift (subscript data "_id");
  setattr "id" (VJson _id);;
  name ← lift (subscript meta "name");
  setattr "name" (VJson name);;
  attributes ← lift (subscript data "attributes");
  oil ← lift (from_py_json attributes);
  setattr "oil" (VOil oil);;
  oil ← getattr_oil;
  if negb (metadata_gnome_suitable oil) then mret tt
  else
    oil ← getattr_oil;
    g ← lift (make_gnome_oil (deepcopy oil));
    setattr "gnome_oil" (VDict g).

(** [OpendriftOil(o)] *)
Definition OpendriftOil_call (o : json) : result instance :=
  new OpendriftOil (OpendriftOil_init o).

(** The decorator [__require_gnome_oil__]: [w] reads [self.gnome_oil],
    raises [NotFullOil()] if it is [None], and runs [f] otherwise. *)
Definition __require_gnome_oil__ {A} (f : M A) : M A :=
  gnome_oil ← getattr "gnome_oil";
  match gnome_oil with
  | VJson JNull => raise NotFullOil
  | _ => f
  end.

(** [self.gnome_oil[key]] *)
Definition gnome_oil_item (key : string) : M gval :=
  gnome_oil ← getattr "gnome_oil";
  match gnome_oil with
  | VDict g =>
      match g !! key with
      | Some v => mret v
      | None => raise (KeyError key)
      end
  | _ => raise TypeError
  end.

(** *** NumPy *)

(** [np.asarray] on a number or on a sequence of numbers.  (NumPy hands
    the results of arithmetic on 0-dimensional arrays back as float64
    scalars; they are the same numbers.) *)
Definition np_asarray (v : gval) : ndarray :=
  match v with
  | GScalar x => Arr0 x
  | GSeq l => Arr1 l
  end.

Definition arr_size (a : ndarray) : nat :=
  match a with
  | Arr0 _ => 1
  | Arr1 l => length l
  end.

(** An elementwise operation with a Python scalar, or a unary ufunc. *)
Definition arr_map (f : float → float) (a : ndarray) : ndarray :=
  match a with
  | Arr0 x => Arr0 (f x)
  | Arr1 l => Arr1 (f <$> l)
  end.

(** An elementwise operation on two arrays, with NumPy's broadcasting: a
    0-dimensional array and an array of one element are stretched, two
    arrays of the same length are combined pairwise, and any other pair of
    shapes raises [ValueError]. *)
Definition arr_op2 (f : float → float → float) (a b : ndarray)
    : result ndarray :=
  match a, b with
  | Arr0 x, Arr0 y => Return (Arr0 (f x y))
  | Arr0 x, Arr1 l => Return (Arr1 (f x <$> l))
  | Arr1 l, Arr0 y => Return (Arr1 ((λ x, f x y) <$> l))
  | Arr1 l1, Arr1 l2 =>
      if bool_decide (length l1 = length l2) then Return (Arr1 (zip_with f l1 l2))
      else match l1, l2 with
           | [x], _ => Return (Arr1 (f x <$> l2))
           | _, [y] => Return (Arr1 ((λ x, f x y) <$> l1))
           | _, _ => Raise ValueError
           end
  end.

(** *** The accessors

    For each accessor, [x_wrapped] is the function as written under the
    decorator and [x] is the decorated function the class exposes.  The
    default [unit='K'] of [density_at_temp] and [kvis_at_temp] is an argument
    like any other: a caller that omits it passes ["K"]. *)

Definition density_at_temp_wrapped (t : float) (unit : string) : M float :=
  oil ← getattr_oil;
  lift (Density_at_temp oil t unit).

Definition density_at_temp (t : float) (unit : string) : M float :=
  __require_gnome_oil__ (density_at_temp_wrapped t unit).

Definition kvis_at_temp_wrapped (t : float) (unit : string) : M float :=
  oil ← getattr_oil;
  lift (KinematicViscosity_at_temp oil t unit).

Definition kvis_at_temp (t : float) (unit : string) : M float :=
  __require_gnome_oil__ (kvis_at_temp_wrapped t unit).

Definition mass_fraction_wrapped : M ndarray :=
  v ← gnome_oil_item "mass_fraction";
  mret (np_asarray v).

Definition mass_fraction : M ndarray :=
  __require_gnome_oil__ mass_fraction_wrapped.

Definition oil_water_surface_tension_wrapped : M float :=
  api ← gnome_oil_item "api";
  lift (oil_water_surface_tension_from_api api).

Definition oil_water_surface_tension : M float :=
  __require_gnome_oil__ oil_water_surface_tension_wrapped.

Definition bulltime : M gval :=
  __require_gnome_oil__ (gnome_oil_item "bullwinkle_time").

Definition bullwinkle : M gval :=
  __require_gnome_oil__ (gnome_oil_item "bullwinkle_fraction").

Definition emulsion_water_fraction_max : M gval :=
  __require_gnome_oil__ (gnome_oil_item "emulsion_water_fraction_max").

(** The arithmetic of [vapor_pressure], statement by statement.  The
    operators are NumPy's elementwise ones; [x ** 2] on an array is
    [np.square], the product of [x] with itself. *)
Definition vapor_pressure_wrapped (temp : float) : M ndarray :=
  let atmos_pressure := 101325.0%float in
  v ← gnome_oil_item "boiling_point";
  let boiling_point := np_asarray v in
  let D_Zb := 0.97%float in
  let R_cal := 1.987%float in
  let D_S :=
    arr_map (λ x, 8.75 + x)%float
      (arr_map (λ x, 1.987 * x)%float (arr_map np_log boiling_point)) in
  let C_2i :=
    arr_map (λ x, x - 18)%float (arr_map (λ x, 0.19 * x)%float boiling_point) in
  d ← lift (arr_op2 PrimFloat.sub boiling_point C_2i);
  var ← lift (arr_op2 PrimFloat.sub
                (arr_map (λ x, 1 / x)%float d)
                (arr_map (λ x, 1 / x)%float (arr_map (λ c, temp - c)%float C_2i)));
  d ← lift (arr_op2 PrimFloat.sub boiling_point C_2i);
  n ← lift (arr_op2 PrimFloat.mul D_S (arr_map (λ x, x * x)%float d));
  q ← lift (arr_op2 PrimFloat.div n
              (arr_map (λ x, (D_Zb * R_cal) * x)%float boiling_point));
  ln_Pi_Po ← lift (arr_op2 PrimFloat.mul q var);
  let Pi := arr_map (λ x, x * atmos_pressure)%float (arr_map np_exp ln_Pi_Po) in
  mret Pi.

Definition vapor_pressure (temp : float) : M ndarray :=
  __require_gnome_oil__ (vapor_pressure_wrapped temp).

Definition molecular_weight : M gval :=
  __require_gnome_oil__ (gnome_oil_item "molecular_weight").

Definition k0y : M gval :=
  __require_gnome_oil__ (gnome_oil_item "k0y").

(** The ten accessors the class marks with the decorator, with their
    arguments, and what a call of one returns. *)
Inductive accessor : Type :=
  | A_density_at_temp (t : float) (unit : string)
  | A_kvis_at_temp (t : float) (unit : string)
  | A_mass_fraction
  | A_oil_water_surface_tension
  | A_bulltime
  | A_bullwinkle
  | A_emulsion_water_fraction_max
  | A_vapor_pressure (temp : float)
  | A_molecular_weight
  | A_k0y.

Inductive pyret : Type :=
  | RFloat (x : float)
  | RArray (a : ndarray)
  | RVal (v : gval).

(** The function under the decorator, and the decorated accessor. *)
Definition wrapped (a : accessor) : M pyret :=
  match a with
  | A_density_at_temp t unit => RFloat <$> density_at_temp_wrapped t unit
  | A_kvis_at_temp t unit => RFloat <$> kvis_at_temp_wrapped t unit
  | A_mass_fraction => RArray <$> mass_fraction_wrapped
  | A_oil_water_surface_tension => RFloat <$> oil_water_surface_tension_wrapped
  | A_bulltime => RVal <$> gnome_oil_item "bullwinkle_time"
  | A_bullwinkle => RVal <$> gnome_oil_item "bullwinkle_fraction"
  | A_emulsion_water_fraction_max =>
      RVal <$> gnome_oil_item "emulsion_water_fraction_max"
  | A_vapor_pressure temp => RArray <$> vapor_pressure_wrapped temp
  | A_molecular_weight => RVal <$> gnome_oil_item "molecular_weight"
  | A_k0y => RVal <$> gnome_oil_item "k0y"
  end.

Definition invoke (a : accessor) : M pyret :=
  match a with
  | A_density_at_temp t unit => RFloat <$> density_at_temp t unit
  | A_kvis_at_temp t unit => RFloat <$> kvis_at_temp t unit
  | A_mass_fraction => RArray <$> mass_fraction
  | A_oil_water_surface_tension => RFloat <$> oil_water_surface_tension
  | A_bulltime => RVal <$> bulltime
  | A_bullwinkle => RVal <$> bullwinkle
  | A_emulsion_water_fraction_max => RVal <$> emulsion_water_fraction_max
  | A_vapor_pressure temp => RArray <$> vapor_pressure temp
  | A_molecular_weight => RVal <$> molecular_weight
  | A_k0y => RVal <$> k0y
  end.

(** A computation that leaves [self] as it found it. *)
Definition readonly {A} (m : M A) : Prop :=
  ∀ self, (m self).2 = self.

(** ** The specification's formulas *)

(** The vapour pressure of one pseudo-component, as the specification
    writes the closed form: a scalar formula in the boiling point [b] of the
    component and the temperature [temp]. *)
Definition Pi_closed_form (temp b : float) : float :=
  let atmos_pressure := 101325.0%float in
  let D_Zb := 0.97%float in
  let R_cal := 1.987%float in
  let D_S := (8.75 + 1.987 * np_log b)%float in
  let C_2i := (0.19 * b - 18)%float in
  let var := (1 / (b - C_2i) - 1 / (temp - C_2i))%float in
  let ln_ratio :=
    (D_S * ((b - C_2i) * (b - C_2i)) / (D_Zb * R_cal * b) * var)%float in
  (np_exp ln_ratio * atmos_pressure)%float.

(** The concrete case of the specification: [boiling_point = [400.0]] and
    [temp = 350.0], with the intermediate values it lists. *)
Definition Pi_400_350 : float :=
  let D_S := (8.75 + 1.987 * np_log 400)%float in
  let var := (1 / 342 - 1 / 292)%float in
  let ln_ratio := (D_S * (342 * 342) / (0.97 * 1.987 * 400) * var)%float in
  (np_exp ln_ratio * 101325.0)%float.

(** The exponent of the closed form, [ln(Pi / Po)], and the constant
    [C_2i] of a component. *)
Definition C_2i_of (b : float) : float := (0.19 * b - 18)%float.

Definition ln_ratio_of (temp b : float) : float :=
  let D_S := (8.75 + 1.987 * np_log b)%float in
  let var := (1 / (b - C_2i_of b) - 1 / (temp - C_2i_of b))%float in
  (D_S * ((b - C_2i_of b) * (b - C_2i_of b)) / (0.97 * 1.987 * b) * var)%float.

End Model.

(** [sub] is a literal substring of [s]. *)
Definition substring (sub s : string) : Prop :=
  ∃ pre post, s = pre +:+ sub +:+ post.

(** The metadata fields a listing fragment carries. *)
Definition listing_metadata_fields : gset string :=
  {[ "name"; "API"; "gnome_suitable"; "labels"; "location";
     "model_completeness"; "product_type"; "sample_date" ]}.

(** [a[i]] on a 1-dimensional array. *)
Definition arr_item (a : ndarray) (i : nat) : option float :=
  match a with
  | Arr0 _ => None
  | Arr1 l => l !! i
  end.

(** An IEEE-754 infinity or NaN. *)
Definition non_finite (x : float) : bool := is_infinity x || is_nan x.

(** The same on the specification side of the floats. *)
Definition SF_non_finite (x : spec_float) : bool :=
  match x with
  | S754_infinity _ | S754_nan => true
  | _ => false
  end.

Definition SF_zero_or_nan (x : spec_float) : bool :=
  match x with
  | S754_zero _ | S754_nan => true
  | _ => false
  end.

(** [math.isclose(a, b, rel_tol=rel_tol)], with its default [abs_tol=0.0]. *)
Definition isclose (a b rel_tol : float) : bool :=
  if (a =? b)%float then true
  else if is_infinity a || is_infinity b then false
  else
    let diff := abs (b - a) in
    (diff <=? abs (rel_tol * b))%float || (diff <=? abs (rel_tol * a))%float.

(** ** String representation and upgrade *)

(** [g[key]] on the GNOME dictionary. *)
Definition gnome_subscript (g : gmap string gval) (key : string)
    : result gval :=
  match g !! key with
  | Some v => Return v
  | None => Raise (KeyError key)
  end.

(** Python's [str()], as an f-string applies it to a value: on a string it
    is the string itself; what it is on the other values is Python's
    business. *)
Class Builtins {AD : Adios} : Type := {
  py_str : pyval → string;
  py_str_JStr : ∀ s, py_str (VJson (JStr s)) = s;
}.

(** [api.get_full_oil_from_id(id)]: fetches the full record and builds the
    [OpendriftOil]. *)
Class Api {AD : Adios} : Type := {
  get_full_oil_from_id : pyval → result instance;
}.

Section Representation.
Context {AD : Adios} {BI : Builtins} {API : Api}.

(** [ThinOil.__repr__] *)
Definition ThinOil_repr : M string :=
  id ← getattr "id";
  name ← getattr "name";
  mret ("[<adios.ThinOil> " +:+ py_str id +:+ "] " +:+ py_str name).

(** [OpendriftOil.__repr__], which overrides it. *)
Definition OpendriftOil_repr : M string :=
  id ← getattr "id";
  name ← getattr "name";
  mret ("[<adios.Oil> " +:+ py_str id +:+ "] " +:+ py_str name).

(** [repr(self)]: the method of the class of [self]. *)
Definition repr : M string := λ self,
  match py_class self with
  | ThinOil => ThinOil_repr self
  | OpendriftOil => OpendriftOil_repr self
  end.

(** [ThinOil.make_full], which [OpendriftOil] inherits. *)
Definition make_full : M instance :=
  id ← getattr "id";
  lift (get_full_oil_from_id id).

(** Two objects with the same [oil] and the same [gnome_oil], and a
    computation whose result is the same on any two such objects. *)
Definition same_oil (self1 self2 : instance) : Prop :=
  py_dict self1 !! "oil" = py_dict self2 !! "oil" ∧
  py_dict self1 !! "gnome_oil" = py_dict self2 !! "gnome_oil".

Definition oil_only {A} (m : M A) : Prop :=
  ∀ self1 self2, same_oil self1 self2 → (m self1).1 = (m self2).1.

End Representation.

(** ** A reference environment

    Stand-ins for the collaborators, to run the model on concrete records:
    an exponential and a logarithm on binary64 by argument reduction and a
    truncated series, with the IEEE-754 special cases, and a small ADIOS
    whose parser keeps the attributes as they are. *)

Definition float_to_Z (x : float) : Z :=
  match Prim2SF x with
  | S754_finite s m e =>
      let v := Z.shiftl (Zpos m) e in if s then Z.opp v else v
  | _ => 0%Z
  end.

Definition Z_to_float (z : Z) : float :=
  match z with
  | Z0 => 0%float
  | Zpos _ => of_uint63 (Uint63.of_Z z)
  | Zneg p => (- of_uint63 (Uint63.of_Z (Zpos p)))%float
  end.

Fixpoint horner (cs : list float) (x : float) : float :=
  match cs with
  | [] => 0%float
  | c :: cs' => (c + x * horner cs' x)%float
  end.

(** [1 / n!] for [n] up to 13. *)
Definition exp_coeffs : list float :=
  [1; 1; 0.5; 0.16666666666666666; 0.041666666666666664;
   0.008333333333333333; 0.001388888888888889; 0.0001984126984126984;
   2.48015873015873e-05; 2.7557319223985893e-06; 2.755731922398589e-07;
   2.505210838544172e-08; 2.08767569878681e-09; 1.6059043836821613e-10]%float.

Definition ref_exp (x : float) : float :=
  if is_nan x then nan
  else if (709.782712893384 <? x)%float then infinity
  else if (x <? -745.1332191019412)%float then 0%float
  else
    let k := ((x * 1.4426950408889634 + 6755399441055744)
              - 6755399441055744)%float in
    let r := ((x - k * 0.6931471803691238) - k * 1.9082149292705877e-10)%float in
    Z.ldexp (horner exp_coeffs r) (float_to_Z k).

(** [1 / (2 n + 1)] for [n] up to 10. *)
Definition log_coeffs : list float :=
  [1; 0.3333333333333333; 0.2; 0.14285714285714285; 0.1111111111111111;
   0.09090909090909091; 0.07692307692307693; 0.06666666666666667;
   0.058823529411764705; 0.05263157894736842; 0.047619047619047616]%float.

Definition ref_log (x : float) : float :=
  if is_nan x then nan
  else if (x <? 0)%float then nan
  else if (x =? 0)%float then neg_infinity
  else if (x =? infinity)%float then infinity
  else
    let (m, e) := Z.frexp x in
    let (m, e) :=
      if (m <? 0.7071067811865476)%float then ((2 * m)%float, (e - 1)%Z)
      else (m, e) in
    let s := ((m - 1) / (m + 1))%float in
    (Z_to_float e * 0.6931471805599453 + 2 * s * horner log_coeffs (s * s))%float.

Definition reference_numpy : Numpy :=
  {| np_log := ref_log; np_exp := ref_exp |}.

(** The GNOME dictionary the reference conversion produces: one oil of two
    pseudo-components. *)
Definition reference_gnome_oil : gmap string gval :=
  list_to_map
    [("api", GScalar 30); ("mass_fraction", GSeq [0.25; 0.75]%float);
     ("boiling_point", GSeq [400; 1568.421052631579]%float);
     ("molecular_weight", GSeq [120.5; 310.25]%float);
     ("bullwinkle_time", GScalar (-1)); ("bullwinkle_fraction", GScalar 0.125);
     ("emulsion_water_fraction_max", GScalar 0.9); ("k0y", GScalar 2.024e-06)].

Definition reference_adios : Adios :=
  {| AdiosOil := json;
     from_py_json attributes :=
       match attributes with
       | JObj _ => Return attributes
       | _ => Raise (CollaboratorError "from_py_json")
       end;
     metadata_gnome_suitable oil :=
       match subscript oil "metadata" ≫= λ m, subscript m "gnome_suitable" with
       | Return (JBool b) => b
       | _ => false
       end;
     make_gnome_oil _ := Return reference_gnome_oil;
     Density_at_temp _ _ _ := Return 870.5%float;
     KinematicViscosity_at_temp _ _ _ := Return 1.25e-05%float;
     oil_water_surface_tension_from_api api :=
       match api with
       | GScalar x => Return (0.001 * (39 - 0.2571 * x))%float
       | GSeq _ => Raise TypeError
       end |}.

(** The metadata of a listing fragment, and two records around it. *)
Definition example_metadata (name : string) (suitable : bool)
    : gmap string json :=
  list_to_map
    [("name", JStr name); ("API", JFloat 30); ("gnome_suitable", JBool suitable);
     ("labels", JArr [JStr "Crude Oil"; JStr "Medium Crude"]);
     ("location", JStr "Norway"); ("model_completeness", JFloat 94);
     ("product_type", JStr "Crude Oil NOS"); ("sample_date", JStr "2019-03-01")].

Definition example_attributes (name : string) (suitable : bool)
    : gmap string json :=
  list_to_map [("metadata", JObj (example_metadata name suitable))].

Definition example_listing_dict (name : string) (suitable : bool)
    : gmap string json :=
  list_to_map
    [("_id", JStr "NO00108"); ("type", JStr "oils");
     ("attributes", JObj (example_attributes name suitable))].

Definition example_listing (name : string) (suitable : bool) : json :=
  JObj (example_listing_dict name suitable).

Definition example_record (name : string) (suitable : bool) : json :=
  JObj (list_to_map [("data", example_listing name suitable)]).

(** The [ThinOil] that [from_json] builds from the listing, and the
    [OpendriftOil] that the constructor builds from the record: the latter
    has [gnome_oil] only if the record is GNOME-suitable. *)
Definition example_ThinOil (name : string) (suitable : bool)
    : instance (AD:=reference_adios) :=
  Instance ThinOil
    (list_to_map
      [("id", VJson (JStr "NO00108")); ("type", VJson (JStr "oils"));
       ("name", VJson (JStr name)); ("API", VJson (JFloat 30));
       ("gnome_suitable", VJson (JBool suitable));
       ("labels", VJson (JArr [JStr "Crude Oil"; JStr "Medium Crude"]));
       ("location", VJson (JStr "Norway"));
       ("model_completeness", VJson (JFloat 94));
       ("product_type", VJson (JStr "Crude Oil NOS"));
       ("sample_date", VJson (JStr "2019-03-01"))]).

Definition example_oil (name : string) (suitable : bool)
    : instance (AD:=reference_adios) :=
  Instance OpendriftOil
    (list_to_map
      ([("data", VJson (example_record name suitable));
        ("id", VJson (JStr "NO00108")); ("name", VJson (JStr name));
        ("oil", VOil (AD:=reference_adios)
                  (JObj (example_attributes name suitable)))]
       ++ if suitable then [("gnome_oil", VDict reference_gnome_oil)] else [])).

(** An [OpendriftOil] object that holds the GNOME dictionary [g]. *)
Definition oil_of_gnome_oil (g : gmap string gval)
    : instance (AD:=reference_adios) :=
  Instance OpendriftOil
    (<["gnome_oil" := VDict g]> (py_dict (example_oil "GENERIC CRUDE" false))).

(** Two more GNOME dictionaries: an oil of one pseudo-component that boils
    at 400 K, and one that shares nothing with the reference oil but its
    API gravity. *)
Definition single_component_gnome_oil : gmap string gval :=
  list_to_map
    [("api", GScalar 12.5); ("mass_fraction", GSeq [1%float]);
     ("boiling_point", GSeq [400%float])].

Definition same_api_gnome_oil : gmap string gval :=
  list_to_map [("api", GScalar 30); ("k0y", GScalar 1.5e-06)].

(** [str()] on the values the examples print, and a database of one oil. *)
Definition reference_builtins : Builtins (AD:=reference_adios) :=
  {| py_str v :=
       match v with
       | VJson (JStr s) => s
       | VJson JNull => "None"
       | VJson (JBool true) => "True"
       | VJson (JBool false) => "False"
       | _ => "<object>"
       end;
     py_str_JStr s := eq_refl |}.

Definition reference_api : Api (AD:=reference_adios) :=
  {| get_full_oil_from_id id :=
       match id with
       | VJson (JStr "NO00108") =>
           OpendriftOil_call (example_record "GENERIC CRUDE" true)
       | _ => Raise (CollaboratorError "404")
       end |}.

(** The reference oil under another identifier. *)
Definition relabelled_oil : instance (AD:=reference_adios) :=
  Instance OpendriftOil
    (<["id" := VJson (JStr "AD00020")]>
       (<["name" := VJson (JStr "ABU SAFAH")]>
          (py_dict (example_oil "GENERIC CRUDE" true)))).

(** * Properties *)

(** ** Strings *)

Lemma str_startswith_spec (p s : string) :
  str_startswith p s = true ↔ ∃ post, s = p +:+ post.
Proof.
  revert s. induction p as [|a p IH]; intros s; simpl.
  - split; [intros _; by exists s | done].
  - destruct s as [|b s]; simpl.
    + split; [done | by intros [post ?]].
    + rewrite andb_true_iff, bool_decide_eq_true, IH. split.
      * intros [-> [post ->]]. by exists post.
      * intros [post Heq]. injection Heq as -> ->. split; [done | by exists post].
Qed.

Lemma str_contains_spec (sub s : string) :
  str_contains sub s = true ↔ substring sub s.
Proof.
  unfold substring. induction s as [|b s IH]; simpl.
  - rewrite orb_false_r, str_startswith_spec. split.
    + intros [post ->]. by exists "", post.
    + intros [pre [post Heq]]. destruct pre; [by exists post | done].
  - rewrite orb_true_iff, str_startswith_spec, IH. split.
    + intros [[post ->] | [pre [post ->]]].
      * by exists "", post.
      * by exists (String b pre), post.
    + intros [pre [post Heq]]. destruct pre as [|c pre]; simpl in Heq.
      * left. by exists post.
      * right. injection Heq as -> ->. by exists pre, post.
Qed.

Section Properties.
Context {NP : Numpy} {AD : Adios}.

(** ** Running a method *)

Lemma run_bind {A B} (m : M A) (k : A → M B) (self : instance) :
  (m ≫= k) self =
  match m self with
  | (Return a, self') => k a self'
  | (Raise e, self') => (Raise e, self')
  end.
Proof. reflexivity. Qed.

Lemma run_fmap {A B} (f : A → B) (m : M A) (self : instance) :
  (f <$> m) self =
  match m self with
  | (Return a, self') => (Return (f a), self')
  | (Raise e, self') => (Raise e, self')
  end.
Proof. reflexivity. Qed.

Lemma run_getattr (attr : string) (self : instance) (v : pyval) :
  py_dict self !! attr = Some v → getattr attr self = (Return v, self).
Proof. unfold getattr. by intros ->. Qed.

Lemma run_getattr_unset (attr : string) (self : instance) :
  py_dict self !! attr = None →
  getattr attr self = (Raise (AttributeError attr), self).
Proof. unfold getattr. by intros ->. Qed.

(** ** Methods that only read *)

Lemma readonly_ret {A} (a : A) : readonly (mret a).
Proof. by intros self. Qed.

Lemma readonly_raise {A} (e : exn) : readonly (raise (A:=A) e).
Proof. by intros self. Qed.

Lemma readonly_lift {A} (r : result A) : readonly (lift r).
Proof. by intros self. Qed.

Lemma readonly_getattr (attr : string) : readonly (getattr attr).
Proof. intros self. unfold getattr. by destruct (py_dict self !! attr). Qed.

Lemma readonly_bind {A B} (m : M A) (k : A → M B) :
  readonly m → (∀ a, readonly (k a)) → readonly (m ≫= k).
Proof.
  intros Hm Hk self. rewrite run_bind. specialize (Hm self).
  destruct (m self) as [[a|e] self']; simpl in *; subst; [apply Hk | done].
Qed.

Lemma readonly_fmap {A B} (f : A → B) (m : M A) :
  readonly m → readonly (f <$> m).
Proof.
  intros Hm. apply readonly_bind; [done | intros a; apply readonly_ret].
Qed.

Create HintDb readonly.
#[local] Hint Resolve readonly_ret readonly_raise readonly_lift
  readonly_getattr readonly_bind readonly_fmap : readonly.

Lemma readonly_getattr_oil : readonly getattr_oil.
Proof.
  unfold getattr_oil. apply readonly_bind; [auto with readonly|].
  intros [j|o|g]; auto with readonly.
Qed.

Lemma readonly_gnome_oil_item (key : string) : readonly (gnome_oil_item key).
Proof.
  unfold gnome_oil_item. apply readonly_bind; [auto with readonly|].
  intros [j|o|g]; auto with readonly. destruct (g !! key); auto with readonly.
Qed.

Lemma readonly_require {A} (f : M A) :
  readonly f → readonly (__require_gnome_oil__ f).
Proof.
  intros Hf. unfold __require_gnome_oil__.
  apply readonly_bind; [auto with readonly|].
  intros [[]|o|g]; auto with readonly.
Qed.

#[local] Hint Resolve readonly_getattr_oil readonly_gnome_oil_item
  readonly_require : readonly.

Lemma readonly_vapor_pressure_wrapped (temp : float) :
  readonly (vapor_pressure_wrapped temp).
Proof.
  unfold vapor_pressure_wrapped.
  repeat (apply readonly_bind; [auto with readonly | intros ?]).
  auto with readonly.
Qed.

Lemma readonly_wrapped (a : accessor) : readonly (wrapped a).
Proof.
  pose proof readonly_vapor_pressure_wrapped.
  destruct a; simpl; apply readonly_fmap;
    unfold density_at_temp_wrapped, kvis_at_temp_wrapped,
      mass_fraction_wrapped, oil_water_surface_tension_wrapped;
    auto 6 with readonly.
Qed.

Lemma readonly_invoke (a : accessor) : readonly (invoke a).
Proof.
  pose proof readonly_vapor_pressure_wrapped.
  destruct a; simpl; apply readonly_fmap;
    unfold density_at_temp, kvis_at_temp, mass_fraction,
      oil_water_surface_tension, bulltime, bullwinkle,
      emulsion_water_fraction_max, vapor_pressure, molecular_weight, k0y,
      density_at_temp_wrapped, kvis_at_temp_wrapped,
      mass_fraction_wrapped, oil_water_surface_tension_wrapped;
    auto 7 with readonly.
Qed.

Lemma readonly_is_generic : readonly is_generic.
Proof.
  unfold is_generic. apply readonly_bind; [auto with readonly|].
  intros [j|o|g]; auto with readonly.
Qed.

(** ** The guard *)

Lemma require_unset {A} (f : M A) (self : instance) :
  py_dict self !! "gnome_oil" = None →
  __require_gnome_oil__ f self = (Raise (AttributeError "gnome_oil"), self).
Proof.
  intros Hg. unfold __require_gnome_oil__.
  by rewrite run_bind, (run_getattr_unset _ _ Hg).
Qed.

Lemma require_None {A} (f : M A) (self : instance) :
  py_dict self !! "gnome_oil" = Some (VJson JNull) →
  __require_gnome_oil__ f self = (Raise NotFullOil, self).
Proof.
  intros Hg. unfold __require_gnome_oil__.
  by rewrite run_bind, (run_getattr _ _ _ Hg).
Qed.

Lemma require_dict {A} (f : M A) (self : instance) (g : gmap string gval) :
  py_dict self !! "gnome_oil" = Some (VDict g) →
  __require_gnome_oil__ f self = f self.
Proof.
  intros Hg. unfold __require_gnome_oil__.
  by rewrite run_bind, (run_getattr _ _ _ Hg).
Qed.

Lemma fmap_require {A B} (h : A → B) (f : M A) (self : instance) :
  (h <$> __require_gnome_oil__ f) self = __require_gnome_oil__ (h <$> f) self.
Proof.
  unfold __require_gnome_oil__. rewrite run_fmap, !run_bind.
  destruct (getattr "gnome_oil" self) as [[[[]|o|g]|e] self']; try done;
    by rewrite run_fmap.
Qed.

(** Every accessor is its function under the one guard. *)
Lemma invoke_guard (a : accessor) (self : instance) :
  invoke a self = __require_gnome_oil__ (wrapped a) self.
Proof. destruct a; simpl; apply fmap_require. Qed.

Lemma invoke_unset (a : accessor) (self : instance) :
  py_dict self !! "gnome_oil" = None →
  invoke a self = (Raise (AttributeError "gnome_oil"), self).
Proof. intros Hg. rewrite invoke_guard. by apply require_unset. Qed.

Lemma invoke_None (a : accessor) (self : instance) :
  py_dict self !! "gnome_oil" = Some (VJson JNull) →
  invoke a self = (Raise NotFullOil, self).
Proof. intros Hg. rewrite invoke_guard. by apply require_None. Qed.

Lemma invoke_dict (a : accessor) (self : instance) (g : gmap string gval) :
  py_dict self !! "gnome_oil" = Some (VDict g) →
  invoke a self = wrapped a self.
Proof. intros Hg. rewrite invoke_guard. by eapply require_dict. Qed.

(** ** The constructor *)

Lemma run_lift_bind {A B} (r : result A) (k : A → M B) (self : instance) :
  (lift r ≫= k) self =
  match r with
  | Return a => k a self
  | Raise e => (Raise e, self)
  end.
Proof. rewrite run_bind. unfold lift. by destruct r. Qed.

Lemma run_setattr_bind {B} (attr : string) (v : pyval) (k : unit → M B)
    (self : instance) :
  (setattr attr v ≫= k) self =
  k tt (Instance (py_class self) (<[attr := v]> (py_dict self))).
Proof. reflexivity. Qed.

Lemma run_getattr_oil_bind {B} (k : AdiosOil → M B) (self : instance)
    (oil : AdiosOil) :
  py_dict self !! "oil" = Some (VOil oil) →
  (getattr_oil ≫= k) self = k oil self.
Proof.
  intros Hoil. unfold getattr_oil.
  by rewrite !run_bind, (run_getattr _ _ _ Hoil).
Qed.

(** What a successful [__init__] has read, and the instance dictionary it
    leaves. *)
Lemma OpendriftOil_call_inv (o : json) (self : instance) :
  OpendriftOil_call o = Return self →
  ∃ data attributes meta _id name oil,
    subscript o "data" = Return data ∧
    subscript data "attributes" = Return attributes ∧
    subscript attributes "metadata" = Return meta ∧
    subscript data "_id" = Return _id ∧
    subscript meta "name" = Return name ∧
    from_py_json attributes = Return oil ∧
    py_class self = OpendriftOil ∧
    let base : gmap string pyval :=
      <["oil" := VOil oil]> (<["name" := VJson name]>
        (<["id" := VJson _id]> (<["data" := VJson o]> ∅))) in
    if metadata_gnome_suitable oil
    then ∃ g, make_gnome_oil oil = Return g ∧
              py_dict self = <["gnome_oil" := VDict g]> base
    else py_dict self = base.
Proof.
  unfold OpendriftOil_call, new, OpendriftOil_init.
  rewrite run_setattr_bind, run_lift_bind. cbn [py_class py_dict].
  destruct (subscript o "data") as [data|e] eqn:Hdata; [|done].
  rewrite run_lift_bind.
  destruct (subscript data "attributes") as [attributes|e] eqn:Hattr; [|done].
  cbn [mbind result_bind].
  destruct (subscript attributes "metadata") as [meta|e] eqn:Hmeta; [|done].
  rewrite run_lift_bind.
  destruct (subscript data "_id") as [_id|e] eqn:Hid; [|done].
  rewrite run_setattr_bind, run_lift_bind. cbn [py_class py_dict].
  destruct (subscript meta "name") as [name|e] eqn:Hname; [|done].
  rewrite run_setattr_bind, !run_lift_bind. cbn [py_class py_dict].
  destruct (from_py_json attributes) as [oil|e] eqn:Hoil; [|done].
  rewrite run_setattr_bind. cbn [py_class py_dict].
  rewrite (run_getattr_oil_bind _ _ oil) by apply lookup_insert_eq.
  intros Hself.
  exists data, attributes, meta, _id, name, oil.
  repeat (split; [done|]).
  destruct (metadata_gnome_suitable oil); cbn [negb] in Hself.
  - revert Hself.
    rewrite (run_getattr_oil_bind _ _ oil) by apply lookup_insert_eq.
    rewrite run_lift_bind. unfold deepcopy.
    destruct (make_gnome_oil oil) as [g|e]; [|done].
    unfold setattr. cbn [py_class py_dict].
    intros [= <-]. split; [done|]. by exists g.
  - revert Hself. unfold mret, M_ret. by intros [= <-].
Qed.

Ltac lookup_inserts :=
  repeat first
    [ rewrite lookup_insert_eq
    | rewrite lookup_insert_ne by done
    | rewrite lookup_empty ].

Lemma OpendriftOil_call_oil (o : json) (self : instance) :
  OpendriftOil_call o = Return self →
  ∃ data attributes oil,
    subscript o "data" = Return data ∧
    subscript data "attributes" = Return attributes ∧
    from_py_json attributes = Return oil ∧
    py_dict self !! "oil" = Some (VOil oil) ∧
    py_dict self !! "gnome_oil" =
      (if metadata_gnome_suitable oil
       then VDict <$> match make_gnome_oil oil with
                      | Return g => Some g
                      | Raise _ => None
                      end
       else None).
Proof.
  intros Hcall.
  destruct (OpendriftOil_call_inv _ _ Hcall)
    as (data & attributes & meta & _id & name & oil
        & Hdata & Hattr & _ & _ & _ & Hoil & _ & Hdict).
  exists data, attributes, oil. repeat (split; [done|]).
  cbn zeta in Hdict. destruct (metadata_gnome_suitable oil).
  - destruct Hdict as (g & -> & ->). by lookup_inserts.
  - rewrite Hdict. by lookup_inserts.
Qed.

(** An oil that is not GNOME-suitable is built without [gnome_oil]. *)
Lemma OpendriftOil_call_unsuitable (o : json) (self : instance)
    (oil : AdiosOil) :
  OpendriftOil_call o = Return self →
  py_dict self !! "oil" = Some (VOil oil) →
  metadata_gnome_suitable oil = false →
  py_dict self !! "gnome_oil" = None.
Proof.
  intros Hcall Hoil Hsuit.
  destruct (OpendriftOil_call_oil _ _ Hcall)
    as (data & attributes & oil' & _ & _ & _ & Hoil' & Hg).
  rewrite Hoil in Hoil'. injection Hoil' as <-. by rewrite Hsuit in Hg.
Qed.

(** A GNOME-suitable oil is built with the dictionary the conversion
    returned. *)
Lemma OpendriftOil_call_suitable (o : json) (self : instance)
    (oil : AdiosOil) :
  OpendriftOil_call o = Return self →
  py_dict self !! "oil" = Some (VOil oil) →
  metadata_gnome_suitable oil = true →
  ∃ g, make_gnome_oil oil = Return g ∧
       py_dict self !! "gnome_oil" = Some (VDict g).
Proof.
  intros Hcall Hoil Hsuit.
  destruct (OpendriftOil_call_inv _ _ Hcall)
    as (data & attributes & meta & _id & name & oil'
        & _ & _ & _ & _ & _ & _ & _ & Hdict).
  cbn zeta in Hdict. destruct (metadata_gnome_suitable oil') eqn:Hsuit'.
  - destruct Hdict as (g & Hg & Hdict). rewrite Hdict in Hoil |- *.
    revert Hoil. lookup_inserts. intros [= <-]. by exists g.
  - rewrite Hdict in Hoil. revert Hoil. lookup_inserts. intros [= <-].
    congruence.
Qed.

(** ** C3 *)

(** C3. After construction, [gnome_oil] is set if and only if the parsed
    oil, built by the parser from [o['data']['attributes']], was
    GNOME-suitable; and no operation of the class changes the object, so
    none sets or unsets [gnome_oil] afterwards. *)
Theorem gnome_oil_set_iff_suitable (o : json) (self : instance) :
  OpendriftOil_call o = Return self →
  ∃ data attributes oil,
    subscript o "data" = Return data ∧
    subscript data "attributes" = Return attributes ∧
    from_py_json attributes = Return oil ∧
    py_dict self !! "oil" = Some (VOil oil) ∧
    (hasattr self "gnome_oil" = true ↔ metadata_gnome_suitable oil = true) ∧
    (∀ a, (invoke a self).2 = self) ∧
    (is_generic self).2 = self.
Proof.
  intros Hcall.
  destruct (OpendriftOil_call_inv _ _ Hcall)
    as (data & attributes & meta & _id & name & oil
        & Hdata & Hattr & _ & _ & _ & Hoil & _ & Hdict).
  exists data, attributes, oil. repeat (split; [done|]).
  cbn zeta in Hdict. unfold hasattr. rewrite bool_decide_eq_true.
  split; [|split; [split|split]].
  - destruct (metadata_gnome_suitable oil).
    + destruct Hdict as (g & _ & ->). by lookup_inserts.
    + rewrite Hdict. by lookup_inserts.
  - destruct (metadata_gnome_suitable oil); [done|].
    rewrite Hdict. lookup_inserts. by intros [? ?].
  - intros Hsuit. rewrite Hsuit in Hdict.
    destruct Hdict as (g & _ & ->). lookup_inserts. by eexists.
  - intros a. apply readonly_invoke.
  - apply readonly_is_generic.
Qed.

(** ** C2 and C6: what construction leaves, in general *)

(** On an oil built from a record that is not GNOME-suitable, the guard
    cannot read [self.gnome_oil]: whatever the collaborators are, every
    accessor raises [AttributeError]. *)
Lemma unsuitable_invoke (o : json) (self : instance) (oil : AdiosOil)
    (a : accessor) :
  OpendriftOil_call o = Return self →
  py_dict self !! "oil" = Some (VOil oil) →
  metadata_gnome_suitable oil = false →
  invoke a self = (Raise (AttributeError "gnome_oil"), self).
Proof.
  intros Hcall Hoil Hsuit. apply invoke_unset.
  by apply (OpendriftOil_call_unsuitable o self oil).
Qed.

(** C2, as amended.  On an oil built from a record that is not
    GNOME-suitable, [density_at_temp] is guarded like the nine other
    accessors: the ten of them fail at the guard with one and the same
    exception, none returns a value and none changes the object.  On an
    object whose [gnome_oil] is [None], the ten of them, [density_at_temp]
    among them, raise [NotFullOil]. *)
Theorem density_at_temp_guarded_like_the_others (o : json) (self : instance)
    (oil : AdiosOil) :
  OpendriftOil_call o = Return self →
  py_dict self !! "oil" = Some (VOil oil) →
  metadata_gnome_suitable oil = false →
  (∃ e, ∀ a, invoke a self = (Raise e, self)) ∧
  (∀ t unit, is_Return (density_at_temp t unit self).1 = false) ∧
  (∀ self', py_dict self' !! "gnome_oil" = Some (VJson JNull) →
     ∀ a, invoke a self' = (Raise NotFullOil, self')).
Proof.
  intros Hcall Hoil Hsuit.
  pose proof (OpendriftOil_call_unsuitable _ _ _ Hcall Hoil Hsuit) as Hunset.
  split; [|split].
  - exists (AttributeError "gnome_oil"). intros a.
    by apply (unsuitable_invoke o self oil).
  - intros t unit. unfold density_at_temp. by rewrite require_unset.
  - intros self' Hnone a. by apply invoke_None.
Qed.

(** C6, as amended.  An [OpendriftOil] is a [ThinOil]; of the attributes
    [ThinOil] declares, its constructor sets [id] and [name], from
    [o['data']['_id']] and [o['data']['attributes']['metadata']['name']], and
    no other; no operation of the class changes the object afterwards. *)
Theorem OpendriftOil_sets_id_and_name_only (o : json) (self : instance) :
  OpendriftOil_call o = Return self →
  isinstance self ThinOil = true ∧
  (∃ data attributes meta _id name,
     subscript o "data" = Return data ∧
     subscript data "attributes" = Return attributes ∧
     subscript attributes "metadata" = Return meta ∧
     subscript data "_id" = Return _id ∧
     subscript meta "name" = Return name ∧
     py_dict self !! "id" = Some (VJson _id) ∧
     py_dict self !! "name" = Some (VJson name)) ∧
  (∀ attr, attr ∈ ThinOil_attributes →
     (hasattr self attr = true ↔ attr = "id" ∨ attr = "name")) ∧
  (∀ a, (invoke a self).2 = self) ∧
  (is_generic self).2 = self.
Proof.
  intros Hcall.
  destruct (OpendriftOil_call_inv _ _ Hcall)
    as (data & attributes & meta & _id & name & oil
        & Hdata & Hattr & Hmeta & Hid & Hname & Hoil & Hclass & Hdict).
  cbn zeta in Hdict.
  split; [|split; [|split; [|split]]].
  - unfold isinstance. by rewrite Hclass.
  - exists data, attributes, meta, _id, name. repeat (split; [done|]).
    destruct (metadata_gnome_suitable oil).
    + destruct Hdict as (g & _ & ->). by lookup_inserts.
    + rewrite Hdict. by lookup_inserts.
  - intros attr Hin. unfold hasattr. rewrite bool_decide_eq_true.
    assert (py_dict self !! attr =
            (<["oil" := VOil oil]> (<["name" := VJson name]>
              (<["id" := VJson _id]> (<["data" := VJson o]> ∅)))
               : gmap string pyval) !! attr) as ->.
    { unfold ThinOil_attributes in Hin.
      destruct (metadata_gnome_suitable oil).
      - destruct Hdict as (g & _ & ->).
        repeat (apply elem_of_cons in Hin as [->|Hin]);
          [by lookup_inserts..|by apply elem_of_nil in Hin].
      - by rewrite Hdict. }
    unfold ThinOil_attributes in Hin.
    repeat (apply elem_of_cons in Hin as [->|Hin]);
      [lookup_inserts..|by apply elem_of_nil in Hin];
      first [ split; [intros _; by auto | intros _; by eexists]
            | split; [by intros [? ?] | by intros [?|?]] ].
  - intros a. apply readonly_invoke.
  - apply readonly_is_generic.
Qed.

(** ** C7: [ThinOil.from_json] *)

Lemma listing_metadata_fields_params :
  listing_metadata_fields = list_to_set (drop 2 ThinOil_params).
Proof. unfold listing_metadata_fields. simpl. set_solver. Qed.

Lemma ThinOil_new (a0 a1 a2 a3 a4 a5 a6 a7 a8 a9 : json) :
  new ThinOil (ThinOil_init a0 a1 a2 a3 a4 a5 a6 a7 a8 a9) =
  Return (Instance ThinOil
    (<["sample_date" := VJson a9]> (<["product_type" := VJson a8]>
      (<["model_completeness" := VJson a7]> (<["location" := VJson a6]>
        (<["labels" := VJson a5]> (<["gnome_suitable" := VJson a4]>
          (<["API" := VJson a3]> (<["name" := VJson a2]>
            (<["type" := VJson a1]> (<["id" := VJson a0]> ∅))))))))))).
Proof. reflexivity. Qed.

Lemma ThinOil_call_valid (a0 a1 : json) (kwargs : gmap string json) :
  dom kwargs = listing_metadata_fields →
  ∃ a2 a3 a4 a5 a6 a7 a8 a9,
    kwargs !! "name" = Some a2 ∧
    ThinOil_call [a0; a1] kwargs =
      new ThinOil (ThinOil_init a0 a1 a2 a3 a4 a5 a6 a7 a8 a9).
Proof.
  intros Hdom.
  assert (∀ k, k ∈ listing_metadata_fields → is_Some (kwargs !! k)) as Hk.
  { intros k Hin. apply elem_of_dom. by rewrite Hdom. }
  unfold listing_metadata_fields in Hk.
  destruct (Hk "name") as [a2 H2]; [set_solver|].
  destruct (Hk "API") as [a3 H3]; [set_solver|].
  destruct (Hk "gnome_suitable") as [a4 H4]; [set_solver|].
  destruct (Hk "labels") as [a5 H5]; [set_solver|].
  destruct (Hk "location") as [a6 H6]; [set_solver|].
  destruct (Hk "model_completeness") as [a7 H7]; [set_solver|].
  destruct (Hk "product_type") as [a8 H8]; [set_solver|].
  destruct (Hk "sample_date") as [a9 H9]; [set_solver|].
  exists a2, a3, a4, a5, a6, a7, a8, a9. split; [done|].
  unfold ThinOil_call, bind_args.
  rewrite bool_decide_eq_false_2 by (simpl; lia).
  rewrite bool_decide_eq_true_2
    by (rewrite Hdom, listing_metadata_fields_params; done).
  simpl. by rewrite H2, H3, H4, H5, H6, H7, H8, H9.
Qed.

Lemma ThinOil_call_invalid (a0 a1 : json) (kwargs : gmap string json) :
  dom kwargs ≠ listing_metadata_fields →
  ThinOil_call [a0; a1] kwargs = Raise TypeError.
Proof.
  intros Hdom. unfold ThinOil_call, bind_args.
  rewrite bool_decide_eq_false_2 by (simpl; lia).
  case_bool_decide as Hsub; [|done].
  destruct (mapM _ _) as [vs|] eqn:Hvs; [|done].
  exfalso. apply Hdom. rewrite listing_metadata_fields_params.
  apply (anti_symm (⊆)); [done|].
  intros k Hk. apply elem_of_list_to_set in Hk.
  apply mapM_Some_1 in Hvs. apply list_elem_of_lookup in Hk as [i Hi].
  destruct (Forall2_lookup_l _ _ _ _ _ Hvs Hi) as (v & _ & Hv).
  apply elem_of_dom. by exists v.
Qed.

(** C7. On a listing fragment whose metadata has exactly the recognised
    fields, [from_json] returns a [ThinOil] whose [id], [type] and [name]
    are [d['_id']], [d['type']] and the [name] of the metadata (and which has
    every attribute of the class); on one whose metadata has other keys,
    more or fewer, it fails with a structural error. *)
Theorem ThinOil_from_json_strict (d : json) (dm am md : gmap string json) :
  d = JObj dm →
  dm !! "attributes" = Some (JObj am) →
  am !! "metadata" = Some (JObj md) →
  (∀ _id _type,
     dm !! "_id" = Some _id → dm !! "type" = Some _type →
     dom md = listing_metadata_fields →
     ∃ self name,
       ThinOil_from_json d = Return self ∧
       md !! "name" = Some name ∧
       py_class self = ThinOil ∧
       py_dict self !! "id" = Some (VJson _id) ∧
       py_dict self !! "type" = Some (VJson _type) ∧
       py_dict self !! "name" = Some (VJson name) ∧
       ∀ attr, attr ∈ ThinOil_attributes → hasattr self attr = true) ∧
  (dom md ≠ listing_metadata_fields →
     ∃ e, ThinOil_from_json d = Raise e ∧ structural e = true).
Proof.
  intros -> Hattr Hmeta. split.
  - intros _id _type Hid Htype Hdom.
    destruct (ThinOil_call_valid _id _type md Hdom)
      as (a2 & a3 & a4 & a5 & a6 & a7 & a8 & a9 & Hname & Hcall).
    rewrite ThinOil_new in Hcall.
    eexists _, a2. split.
    { unfold ThinOil_from_json. cbn [subscript mbind result_bind].
      rewrite Hid, Htype, Hattr. cbn [subscript mbind result_bind].
      rewrite Hmeta. cbn [kwargs_of mbind result_bind]. exact Hcall. }
    cbn [py_class py_dict]. repeat (split; [done|]).
    intros attr Hin. unfold hasattr. rewrite bool_decide_eq_true.
    cbn [py_dict]. unfold ThinOil_attributes in Hin.
    repeat (apply elem_of_cons in Hin as [->|Hin]);
      [by lookup_inserts..|by apply elem_of_nil in Hin].
  - intros Hdom. unfold ThinOil_from_json. cbn [subscript mbind result_bind].
    destruct (dm !! "_id") as [_id|]; [|by eexists].
    destruct (dm !! "type") as [_type|]; [|by eexists].
    rewrite Hattr. cbn [subscript mbind result_bind].
    rewrite Hmeta. cbn [kwargs_of mbind result_bind].
    rewrite ThinOil_call_invalid by done. by eexists.
Qed.

(** ** C8: [is_generic] *)

(** C8. On a [ThinOil] whose name is the string [s], [is_generic] returns
    [True] exactly when ["GENERIC"] is a literal substring of [s]; the
    comparison is on the characters as they are, so it returns [True] for
    ["GENERIC CRUDE"] and [False] for ["generic crude"]. *)
Theorem is_generic_iff_substring (self : instance) (s : string) :
  py_dict self !! "name" = Some (VJson (JStr s)) →
  ∃ b, is_generic self = (Return b, self) ∧
       (b = true ↔ substring "GENERIC" s) ∧
       (s = "GENERIC CRUDE" → b = true) ∧
       (s = "generic crude" → b = false).
Proof.
  intros Hname. exists (str_contains "GENERIC" s). split; [|split; [|split]].
  - unfold is_generic. by rewrite run_bind, (run_getattr _ _ _ Hname).
  - apply str_contains_spec.
  - by intros ->.
  - by intros ->.
Qed.

(** ** C9 and C10: reading the GNOME dictionary *)

Lemma run_gnome_oil_item (key : string) (self : instance)
    (g : gmap string gval) :
  py_dict self !! "gnome_oil" = Some (VDict g) →
  gnome_oil_item key self =
  (match g !! key with
   | Some v => Return v
   | None => Raise (KeyError key)
   end, self).
Proof.
  intros Hg. unfold gnome_oil_item. rewrite run_bind, (run_getattr _ _ _ Hg).
  by destruct (g !! key).
Qed.

(** C9. On a GNOME-suitable oil, [mass_fraction] returns an array of the
    length of [gnome_oil['mass_fraction']] whose elements are the elements
    of that sequence, in order and unchanged. *)
Theorem mass_fraction_roundtrip (self : instance) (g : gmap string gval)
    (l : list float) :
  py_dict self !! "gnome_oil" = Some (VDict g) →
  g !! "mass_fraction" = Some (GSeq l) →
  ∃ a, mass_fraction self = (Return a, self) ∧
       arr_size a = length l ∧
       ∀ i, arr_item a i = l !! i.
Proof.
  intros Hg Hl. exists (Arr1 l). split; [|done].
  unfold mass_fraction, mass_fraction_wrapped.
  rewrite (require_dict _ _ _ Hg), run_bind, (run_gnome_oil_item _ _ _ Hg).
  by rewrite Hl.
Qed.

Lemma run_oil_water_surface_tension (self : instance) (g : gmap string gval) :
  py_dict self !! "gnome_oil" = Some (VDict g) →
  oil_water_surface_tension self =
  (match g !! "api" with
   | Some api => oil_water_surface_tension_from_api api
   | None => Raise (KeyError "api")
   end, self).
Proof.
  intros Hg. unfold oil_water_surface_tension, oil_water_surface_tension_wrapped.
  rewrite (require_dict _ _ _ Hg), run_bind, (run_gnome_oil_item _ _ _ Hg).
  by destruct (g !! "api").
Qed.

(** C10. On GNOME-suitable oils, the result of [oil_water_surface_tension]
    is a function of [gnome_oil['api']] alone: two oils with the same [api]
    entry give the same result, whatever else they hold, and a call leaves
    the oil as it was, so that a second call on it gives the result of the
    first. *)
Theorem oil_water_surface_tension_depends_on_api_only
    (self1 self2 : instance) (g1 g2 : gmap string gval) :
  py_dict self1 !! "gnome_oil" = Some (VDict g1) →
  py_dict self2 !! "gnome_oil" = Some (VDict g2) →
  g1 !! "api" = g2 !! "api" →
  (oil_water_surface_tension self1).1 = (oil_water_surface_tension self2).1 ∧
  (oil_water_surface_tension self1).2 = self1 ∧
  oil_water_surface_tension (oil_water_surface_tension self1).2 =
    oil_water_surface_tension self1.
Proof.
  intros Hg1 Hg2 Hapi.
  rewrite (run_oil_water_surface_tension _ _ Hg1).
  rewrite (run_oil_water_surface_tension _ _ Hg2).
  cbn [fst snd]. rewrite Hapi. repeat split.
  by rewrite (run_oil_water_surface_tension _ _ Hg1), Hapi.
Qed.

(** ** C4: the vapour pressure, array by array and component by component *)

Lemma arr_map_fmap (f g : float → float) (l : list float) :
  arr_map f (Arr1 (g <$> l)) = Arr1 ((λ x, f (g x)) <$> l).
Proof. simpl. by rewrite <-list_fmap_compose. Qed.

Lemma zip_with_fmap_same (f : float → float → float) (g h : float → float)
    (l : list float) :
  zip_with f (g <$> l) (h <$> l) = (λ x, f (g x) (h x)) <$> l.
Proof. induction l as [|x l IH]; [done|]. csimpl. by rewrite IH. Qed.

(** Two arrays computed from the same array have its shape, and combine
    pairwise without broadcasting. *)
Lemma arr_op2_fmap (f : float → float → float) (g h : float → float)
    (l : list float) :
  arr_op2 f (Arr1 (g <$> l)) (Arr1 (h <$> l)) =
  Return (Arr1 ((λ x, f (g x) (h x)) <$> l)).
Proof.
  unfold arr_op2.
  rewrite bool_decide_eq_true_2 by (by rewrite !length_fmap).
  by rewrite zip_with_fmap_same.
Qed.

Lemma vapor_pressure_wrapped_fmap (temp : float) (self : instance)
    (g : gmap string gval) (bs : list float) :
  py_dict self !! "gnome_oil" = Some (VDict g) →
  g !! "boiling_point" = Some (GSeq bs) →
  vapor_pressure_wrapped temp self =
  (Return (Arr1 (Pi_closed_form temp <$> bs)), self).
Proof.
  intros Hg Hbs. unfold vapor_pressure_wrapped.
  rewrite run_bind, (run_gnome_oil_item _ _ _ Hg), Hbs.
  cbn [np_asarray]. cbn zeta.
  rewrite <-(list_fmap_id bs).
  repeat first
    [ rewrite arr_map_fmap
    | rewrite arr_op2_fmap
    | rewrite run_lift_bind; cbv beta iota ].
  by rewrite list_fmap_id.
Qed.

Lemma Pi_closed_form_400_350 : Pi_closed_form 350 400 = Pi_400_350.
Proof.
  unfold Pi_closed_form, Pi_400_350. cbn zeta.
  replace (0.19 * 400 - 18)%float with 58%float by reflexivity.
  replace (400 - 58)%float with 342%float by reflexivity.
  replace (350 - 58)%float with 292%float by reflexivity.
  reflexivity.
Qed.

Lemma isclose_refl (x rel_tol : float) :
  is_nan x = false → isclose x x rel_tol = true.
Proof.
  unfold isclose, is_nan. intros Hx. apply negb_false_iff in Hx.
  by rewrite Hx.
Qed.

(** C4. On a GNOME-suitable oil whose boiling points are [bs],
    [vapor_pressure(temp)] returns an array parallel to [bs] whose component
    [i] is the closed form of the specification at [bs[i]] and [temp].  For
    [bs = [400.0]] and [temp = 350.0] the result is the one value of the
    concrete case, with [C_2i = 58.0] and [var = 1/342 - 1/292]: the two are
    the same binary64 number, hence within relative tolerance 1e-6 of each
    other whenever that number is not a NaN. *)
Theorem vapor_pressure_closed_form (self : instance) (g : gmap string gval)
    (bs : list float) (temp : float) :
  py_dict self !! "gnome_oil" = Some (VDict g) →
  g !! "boiling_point" = Some (GSeq bs) →
  ∃ Pi,
    vapor_pressure temp self = (Return (Arr1 Pi), self) ∧
    length Pi = length bs ∧
    (∀ i, Pi !! i = Pi_closed_form temp <$> bs !! i) ∧
    (bs = [400%float] → temp = 350%float →
       Pi = [Pi_400_350] ∧
       ∀ x, Pi !! 0 = Some x → is_nan x = false →
            isclose x Pi_400_350 1e-6 = true).
Proof.
  intros Hg Hbs. exists (Pi_closed_form temp <$> bs).
  split; [|split; [|split]].
  - unfold vapor_pressure. rewrite (require_dict _ _ _ Hg).
    by apply (vapor_pressure_wrapped_fmap _ _ g).
  - apply length_fmap.
  - intros i. apply list_lookup_fmap.
  - intros -> ->. cbn [fmap list_fmap]. rewrite Pi_closed_form_400_350.
    split; [done|]. intros x [= <-]. apply isclose_refl.
Qed.

(** ** C5: division by zero in the vapour pressure *)

(** *** binary64 facts, through the specification of the operations *)

Lemma SFcompare_finite_Eq (s1 s2 : bool) (m1 m2 : positive) (e1 e2 : Z) :
  SFcompare (S754_finite s1 m1 e1) (S754_finite s2 m2 e2) = Some Eq →
  s1 = s2 ∧ m1 = m2 ∧ e1 = e2.
Proof.
  cbn [SFcompare]. intros [= Hcmp].
  destruct s1, s2; try done;
    destruct (Z.compare_spec e1 e2) as [->| |]; try done;
    destruct (Pos.compare_cont Eq m1 m2) eqn:Hm; try done;
    by apply Pos.compare_eq in Hm as ->.
Qed.

Lemma non_finite_spec (x : float) :
  non_finite x = SF_non_finite (Prim2SF x).
Proof.
  unfold non_finite, is_infinity, is_nan.
  rewrite !FloatAxioms.eqb_spec, abs_spec.
  change (Prim2SF infinity) with (S754_infinity false).
  destruct (Prim2SF x) as [s|s| |s m e]; try done.
  unfold SFeqb. cbn [SFabs SFcompare].
  rewrite Z.compare_refl, Pos.compare_cont_refl. by destruct s.
Qed.

Lemma sub_eqb_zero_or_nan (x y : float) :
  (x =? y)%float = true → SF_zero_or_nan (Prim2SF (x - y)) = true.
Proof.
  rewrite FloatAxioms.eqb_spec, sub_spec. unfold SF64sub, SFeqb.
  destruct (Prim2SF x) as [s1|s1| |s1 m1 e1],
           (Prim2SF y) as [s2|s2| |s2 m2 e2];
    try done; try (by destruct s1, s2); try (by destruct s1);
    try (by destruct s2).
  destruct (SFcompare _ _) as [[]|] eqn:Hcmp; try done.
  apply SFcompare_finite_Eq in Hcmp as (-> & -> & ->). intros _.
  cbn [SFsub]. cbn zeta. by rewrite Z.sub_diag.
Qed.

Lemma div_one_zero_or_nan (d : float) :
  SF_zero_or_nan (Prim2SF d) = true → non_finite (1 / d) = true.
Proof.
  rewrite non_finite_spec, div_spec. unfold SF64div.
  change (Prim2SF 1) with (S754_finite false 4503599627370496 (-52)).
  by destruct (Prim2SF d).
Qed.

Lemma sub_non_finite_l (a b : float) :
  non_finite a = true → non_finite (a - b) = true.
Proof.
  rewrite !non_finite_spec, sub_spec. unfold SF64sub.
  destruct (Prim2SF a) as [s1|s1| |s1 m1 e1],
           (Prim2SF b) as [s2|s2| |s2 m2 e2]; try done.
  by destruct s1, s2.
Qed.

Lemma sub_non_finite_r (a b : float) :
  non_finite b = true → non_finite (a - b) = true.
Proof.
  rewrite !non_finite_spec, sub_spec. unfold SF64sub.
  destruct (Prim2SF a) as [s1|s1| |s1 m1 e1],
           (Prim2SF b) as [s2|s2| |s2 m2 e2]; try done.
  by destruct s1, s2.
Qed.

Lemma mul_non_finite_r (k v : float) :
  non_finite v = true → non_finite (k * v) = true.
Proof.
  rewrite !non_finite_spec, mul_spec. unfold SF64mul.
  by destruct (Prim2SF k) as [s1|s1| |s1 m1 e1],
              (Prim2SF v) as [s2|s2| |s2 m2 e2].
Qed.

(** When [temp] or the boiling point equals [C_2i], the exponent is an
    infinity or a NaN. *)
Lemma ln_ratio_non_finite (temp b : float) :
  (temp =? C_2i_of b)%float = true ∨ (b =? C_2i_of b)%float = true →
  non_finite (ln_ratio_of temp b) = true.
Proof.
  intros Hzero. unfold ln_ratio_of. cbn zeta. apply mul_non_finite_r.
  destruct Hzero as [Ht|Hb].
  - apply sub_non_finite_r, div_one_zero_or_nan. by apply sub_eqb_zero_or_nan.
  - apply sub_non_finite_l, div_one_zero_or_nan. by apply sub_eqb_zero_or_nan.
Qed.

(** The one fact about [np.exp] that decides such a component: where the
    exponent is minus infinity and [np.exp] maps it to zero, as IEEE-754 has
    it, the component is [0.0]. *)
Lemma Pi_closed_form_zero (temp b : float) :
  ln_ratio_of temp b = neg_infinity →
  np_exp neg_infinity = 0%float →
  Pi_closed_form temp b = 0%float.
Proof.
  unfold Pi_closed_form, ln_ratio_of, C_2i_of. cbn zeta.
  by intros -> ->.
Qed.

(** C5, as amended.  On a GNOME-suitable oil with boiling points [bs],
    [vapor_pressure(temp)] raises nothing, whatever [temp] and [bs] are, and
    returns an array parallel to [bs].  For a component with
    [temp == C_2i[i]] or [boiling_point[i] == C_2i[i]] the division by zero
    makes the exponent [ln(Pi / Po)] an infinity or a NaN, and the component
    returned is [np.exp] of that exponent times [101325.0], with no special
    handling. *)
Theorem vapor_pressure_division_by_zero (self : instance)
    (g : gmap string gval) (bs : list float) (temp : float) :
  py_dict self !! "gnome_oil" = Some (VDict g) →
  g !! "boiling_point" = Some (GSeq bs) →
  ∃ Pi,
    vapor_pressure temp self = (Return (Arr1 Pi), self) ∧
    length Pi = length bs ∧
    ∀ i b,
      bs !! i = Some b →
      (temp =? C_2i_of b)%float = true ∨ (b =? C_2i_of b)%float = true →
      non_finite (ln_ratio_of temp b) = true ∧
      Pi !! i = Some (np_exp (ln_ratio_of temp b) * 101325.0)%float.
Proof.
  intros Hg Hbs. exists (Pi_closed_form temp <$> bs). split; [|split].
  - unfold vapor_pressure. rewrite (require_dict _ _ _ Hg).
    by apply (vapor_pressure_wrapped_fmap _ _ g).
  - apply length_fmap.
  - intros i b Hi Hzero. split; [by apply ln_ratio_non_finite|].
    by rewrite list_lookup_fmap, Hi.
Qed.

End Properties.

(** * The model on concrete records

    The reference environment runs the model on the two example records: one
    that is GNOME-suitable and one that is not. *)

(** A closed equation, checked by evaluating its left-hand side. *)
Ltac vm_refl :=
  lazymatch goal with
  | |- _ = ?y => vm_cast_no_check (eq_refl y)
  end.

Lemma OpendriftOil_call_example (suitable : bool) :
  OpendriftOil_call (AD:=reference_adios)
    (example_record "GENERIC CRUDE" suitable) =
  Return (example_oil "GENERIC CRUDE" suitable).
Proof. destruct suitable; vm_refl. Qed.

Lemma ThinOil_from_json_example :
  ThinOil_from_json (AD:=reference_adios) (example_listing "GENERIC CRUDE" true)
  = Return (example_ThinOil "GENERIC CRUDE" true).
Proof. vm_refl. Qed.

Lemma example_oil_unsuitable_gnome_oil :
  py_dict (example_oil "GENERIC CRUDE" false) !! "gnome_oil" = None.
Proof. vm_refl. Qed.

Lemma example_oil_suitable_gnome_oil :
  py_dict (example_oil "GENERIC CRUDE" true) !! "gnome_oil" =
  Some (VDict reference_gnome_oil).
Proof. vm_refl. Qed.

(** C1.  The failing input: the oil built from the record that is not
    GNOME-suitable.  Its constructor leaves [gnome_oil] unassigned, so the
    guard's own read of [self.gnome_oil] raises [AttributeError] before the
    test against [None] is reached: each of the ten accessors raises
    [AttributeError], and none raises [NotFullOil]. *)
Theorem unsuitable_oil_raises_AttributeError :
  OpendriftOil_call (AD:=reference_adios)
    (example_record "GENERIC CRUDE" false) =
    Return (example_oil "GENERIC CRUDE" false) ∧
  hasattr (example_oil "GENERIC CRUDE" false) "gnome_oil" = false ∧
  ∀ a, invoke (NP:=reference_numpy) a (example_oil "GENERIC CRUDE" false) =
         (Raise (AttributeError "gnome_oil"),
          example_oil "GENERIC CRUDE" false) ∧
       (invoke (NP:=reference_numpy) a (example_oil "GENERIC CRUDE" false)).1
         ≠ Raise NotFullOil.
Proof.
  split; [apply OpendriftOil_call_example|]. split; [vm_refl|].
  intros a. rewrite invoke_unset by apply example_oil_unsuitable_gnome_oil.
  done.
Qed.

(** C2, the counterexample.  On the oil built from the record that is not
    GNOME-suitable, the function under the decorator returns the density,
    and [density_at_temp] does not: it is guarded, and fails at the guard as
    [mass_fraction] does, with an exception that is not [NotFullOil]. *)
Lemma density_at_temp_fails_at_the_guard :
  OpendriftOil_call (AD:=reference_adios)
    (example_record "GENERIC CRUDE" false) =
    Return (example_oil "GENERIC CRUDE" false) ∧
  (density_at_temp_wrapped 288.15 "K" (example_oil "GENERIC CRUDE" false)).1
    = Return 870.5%float ∧
  (density_at_temp 288.15 "K" (example_oil "GENERIC CRUDE" false)).1
    = Raise (AttributeError "gnome_oil") ∧
  (mass_fraction (example_oil "GENERIC CRUDE" false)).1
    = Raise (AttributeError "gnome_oil").
Proof.
  split; [apply OpendriftOil_call_example|]. repeat split; vm_refl.
Qed.

Lemma density_at_temp_guarded_like_the_others_witness :
  (∃ e, ∀ a, invoke (NP:=reference_numpy) a
               (example_oil "GENERIC CRUDE" false) =
             (Raise e, example_oil "GENERIC CRUDE" false)) ∧
  (∀ t unit,
     is_Return (density_at_temp t unit
                  (example_oil "GENERIC CRUDE" false)).1 = false) ∧
  (∀ self' : instance (AD:=reference_adios),
     py_dict self' !! "gnome_oil" = Some (VJson JNull) →
     ∀ a, invoke (NP:=reference_numpy) a self' = (Raise NotFullOil, self')).
Proof.
  apply (density_at_temp_guarded_like_the_others
           (NP:=reference_numpy) (AD:=reference_adios)
           (example_record "GENERIC CRUDE" false)
           (example_oil "GENERIC CRUDE" false)
           (JObj (example_attributes "GENERIC CRUDE" false))).
  - apply OpendriftOil_call_example.
  - vm_refl.
  - vm_refl.
Defined.

Lemma gnome_oil_set_iff_suitable_witness :
  hasattr (example_oil "GENERIC CRUDE" true) "gnome_oil" = true ∧
  ∀ a, (invoke (NP:=reference_numpy) a (example_oil "GENERIC CRUDE" true)).2
       = example_oil "GENERIC CRUDE" true.
Proof.
  split; [vm_refl|].
  refine (match gnome_oil_set_iff_suitable
                  (NP:=reference_numpy) (AD:=reference_adios)
                  (example_record "GENERIC CRUDE" true)
                  (example_oil "GENERIC CRUDE" true) _ with
          | ex_intro _ _ (ex_intro _ _ (ex_intro _ _
              (conj _ (conj _ (conj _ (conj _ (conj _ (conj Hro _)))))))) => Hro
          end).
  apply OpendriftOil_call_example.
Defined.

(** C6, the counterexample.  The oil built from the GNOME-suitable record
    is a [ThinOil] without eight of the attributes of [ThinOil]: the
    constructor never assigns them. *)
Lemma OpendriftOil_lacks_ThinOil_attributes :
  OpendriftOil_call (AD:=reference_adios)
    (example_record "GENERIC CRUDE" true) =
    Return (example_oil "GENERIC CRUDE" true) ∧
  isinstance (example_oil "GENERIC CRUDE" true) ThinOil = true ∧
  (hasattr (example_oil "GENERIC CRUDE" true) <$>
     ["type"; "API"; "gnome_suitable"; "labels"; "location";
      "model_completeness"; "product_type"; "sample_date"]) =
  [false; false; false; false; false; false; false; false].
Proof.
  split; [apply OpendriftOil_call_example|]. split; vm_refl.
Qed.

Lemma OpendriftOil_sets_id_and_name_only_witness :
  isinstance (example_oil "GENERIC CRUDE" true) ThinOil = true ∧
  (∃ data attributes meta _id name,
     subscript (example_record "GENERIC CRUDE" true) "data" = Return data ∧
     subscript data "attributes" = Return attributes ∧
     subscript attributes "metadata" = Return meta ∧
     subscript data "_id" = Return _id ∧
     subscript meta "name" = Return name ∧
     py_dict (example_oil "GENERIC CRUDE" true) !! "id" = Some (VJson _id) ∧
     py_dict (example_oil "GENERIC CRUDE" true) !! "name"
       = Some (VJson name)) ∧
  (∀ attr, attr ∈ ThinOil_attributes →
     (hasattr (example_oil "GENERIC CRUDE" true) attr = true
      ↔ attr = "id" ∨ attr = "name")) ∧
  (∀ a, (invoke (NP:=reference_numpy) a
           (example_oil "GENERIC CRUDE" true)).2
        = example_oil "GENERIC CRUDE" true) ∧
  (is_generic (example_oil "GENERIC CRUDE" true)).2
    = example_oil "GENERIC CRUDE" true.
Proof.
  apply (OpendriftOil_sets_id_and_name_only
           (NP:=reference_numpy) (AD:=reference_adios)
           (example_record "GENERIC CRUDE" true)).
  apply OpendriftOil_call_example.
Defined.

Lemma ThinOil_from_json_strict_witness :
  ∃ self name,
    ThinOil_from_json (AD:=reference_adios)
      (example_listing "GENERIC CRUDE" true) = Return self ∧
    example_metadata "GENERIC CRUDE" true !! "name" = Some name ∧
    py_class self = ThinOil ∧
    py_dict self !! "id" = Some (VJson (JStr "NO00108")) ∧
    py_dict self !! "type" = Some (VJson (JStr "oils")) ∧
    py_dict self !! "name" = Some (VJson name) ∧
    ∀ attr, attr ∈ ThinOil_attributes → hasattr self attr = true.
Proof.
  refine (proj1 (ThinOil_from_json_strict (AD:=reference_adios)
                   (example_listing "GENERIC CRUDE" true)
                   (example_listing_dict "GENERIC CRUDE" true)
                   (example_attributes "GENERIC CRUDE" true)
                   (example_metadata "GENERIC CRUDE" true) eq_refl _ _)
                (JStr "NO00108") (JStr "oils") _ _ _);
    vm_refl.
Defined.

(** A listing whose metadata lacks [API], and one with a field too many. *)
Example ThinOil_from_json_missing_field :
  ThinOil_from_json (AD:=reference_adios)
    (JObj (<["attributes" :=
              JObj {["metadata" :=
                      JObj (delete "API" (example_metadata "CRUDE" true))]}]>
            (example_listing_dict "CRUDE" true)))
  = Raise TypeError.
Proof. vm_refl. Qed.

Example ThinOil_from_json_extra_field :
  ThinOil_from_json (AD:=reference_adios)
    (JObj (<["attributes" :=
              JObj {["metadata" :=
                      JObj (<["comments" := JStr ""%string]>
                              (example_metadata "CRUDE" true))]}]>
            (example_listing_dict "CRUDE" true)))
  = Raise TypeError.
Proof. vm_refl. Qed.

Lemma is_generic_iff_substring_witness :
  ∃ b, is_generic (example_ThinOil "GENERIC CRUDE" true)
       = (Return b, example_ThinOil "GENERIC CRUDE" true) ∧
       (b = true ↔ substring "GENERIC" "GENERIC CRUDE") ∧
       ("GENERIC CRUDE" = "GENERIC CRUDE" → b = true) ∧
       ("GENERIC CRUDE" = "generic crude" → b = false).
Proof.
  apply (is_generic_iff_substring (AD:=reference_adios)
           (example_ThinOil "GENERIC CRUDE" true) "GENERIC CRUDE").
  vm_refl.
Defined.

Example is_generic_examples :
  (is_generic (example_ThinOil "GENERIC CRUDE" true)).1 = Return true ∧
  (is_generic (example_ThinOil "generic crude" true)).1 = Return false ∧
  (is_generic (example_ThinOil " GENERIC" true)).1 = Return true ∧
  (is_generic (example_ThinOil "GENERI C" true)).1 = Return false.
Proof. repeat split; vm_refl. Qed.

Lemma mass_fraction_roundtrip_witness :
  ∃ a, mass_fraction (example_oil "GENERIC CRUDE" true)
       = (Return a, example_oil "GENERIC CRUDE" true) ∧
       arr_size a = length [0.25; 0.75]%float ∧
       ∀ i, arr_item a i = [0.25; 0.75]%float !! i.
Proof.
  apply (mass_fraction_roundtrip (AD:=reference_adios)
           (example_oil "GENERIC CRUDE" true) reference_gnome_oil).
  - apply example_oil_suitable_gnome_oil.
  - vm_refl.
Defined.

Lemma oil_water_surface_tension_depends_on_api_only_witness :
  (oil_water_surface_tension (example_oil "GENERIC CRUDE" true)).1 =
    (oil_water_surface_tension (oil_of_gnome_oil same_api_gnome_oil)).1 ∧
  (oil_water_surface_tension (example_oil "GENERIC CRUDE" true)).2 =
    example_oil "GENERIC CRUDE" true ∧
  oil_water_surface_tension
    (oil_water_surface_tension (example_oil "GENERIC CRUDE" true)).2 =
    oil_water_surface_tension (example_oil "GENERIC CRUDE" true).
Proof.
  apply (oil_water_surface_tension_depends_on_api_only (AD:=reference_adios)
           (example_oil "GENERIC CRUDE" true)
           (oil_of_gnome_oil same_api_gnome_oil)
           reference_gnome_oil same_api_gnome_oil).
  - apply example_oil_suitable_gnome_oil.
  - vm_refl.
  - vm_refl.
Defined.

Lemma vapor_pressure_closed_form_witness :
  ∃ Pi,
    vapor_pressure (NP:=reference_numpy) 350
      (oil_of_gnome_oil single_component_gnome_oil)
    = (Return (Arr1 Pi), oil_of_gnome_oil single_component_gnome_oil) ∧
    length Pi = length [400%float] ∧
    (∀ i, Pi !! i =
          Pi_closed_form (NP:=reference_numpy) 350 <$> [400%float] !! i) ∧
    ([400%float] = [400%float] → 350%float = 350%float →
       Pi = [Pi_400_350 (NP:=reference_numpy)] ∧
       ∀ x, Pi !! 0 = Some x → is_nan x = false →
            isclose x (Pi_400_350 (NP:=reference_numpy)) 1e-6 = true).
Proof.
  apply (vapor_pressure_closed_form (NP:=reference_numpy) (AD:=reference_adios)
           (oil_of_gnome_oil single_component_gnome_oil)
           single_component_gnome_oil [400%float] 350);
    vm_refl.
Defined.

(** The concrete case under the reference [np.log] and [np.exp]. *)
Example vapor_pressure_400_350 :
  (vapor_pressure (NP:=reference_numpy) 350
     (oil_of_gnome_oil single_component_gnome_oil)).1
    = Return (Arr1 [21102.277849704406%float]) ∧
  Pi_400_350 (NP:=reference_numpy) = 21102.277849704406%float ∧
  isclose 21102.277849704406 (Pi_400_350 (NP:=reference_numpy)) 1e-6 = true.
Proof. repeat split; vm_refl. Qed.

(** C5, the counterexample.  The second pseudo-component of the reference
    oil boils at a temperature whose [C_2i] is exactly 280 K.  At
    [temp = 280.0] the division by zero makes [var] and the exponent minus
    infinity, [np.exp] of it is zero, and the component returned is [0.0]:
    a finite number, neither an infinity nor a NaN. *)
Lemma vapor_pressure_zero_at_C_2i :
  OpendriftOil_call (AD:=reference_adios)
    (example_record "GENERIC CRUDE" true) =
    Return (example_oil "GENERIC CRUDE" true) ∧
  reference_gnome_oil !! "boiling_point"
    = Some (GSeq [400; 1568.421052631579]%float) ∧
  (280 =? C_2i_of 1568.421052631579)%float = true ∧
  ln_ratio_of (NP:=reference_numpy) 280 1568.421052631579 = neg_infinity ∧
  (vapor_pressure (NP:=reference_numpy) 280
     (example_oil "GENERIC CRUDE" true)).1
    = Return (Arr1 [715.71929722427774; 0]%float) ∧
  non_finite 0 = false.
Proof.
  split; [apply OpendriftOil_call_example|]. repeat split; vm_refl.
Qed.

Lemma vapor_pressure_division_by_zero_witness :
  ∃ Pi,
    vapor_pressure (NP:=reference_numpy) 280
      (example_oil "GENERIC CRUDE" true)
    = (Return (Arr1 Pi), example_oil "GENERIC CRUDE" true) ∧
    length Pi = length [400; 1568.421052631579]%float ∧
    ∀ i b,
      [400; 1568.421052631579]%float !! i = Some b →
      (280 =? C_2i_of b)%float = true ∨ (b =? C_2i_of b)%float = true →
      non_finite (ln_ratio_of (NP:=reference_numpy) 280 b) = true ∧
      Pi !! i =
        Some (np_exp (Numpy:=reference_numpy)
                (ln_ratio_of (NP:=reference_numpy) 280 b) * 101325.0)%float.
Proof.
  apply (vapor_pressure_division_by_zero
           (NP:=reference_numpy) (AD:=reference_adios)
           (example_oil "GENERIC CRUDE" true) reference_gnome_oil
           [400; 1568.421052631579]%float 280).
  - apply example_oil_suitable_gnome_oil.
  - vm_refl.
Defined.

(** * Further properties of the module *)

Section Further.
Context {NP : Numpy} {AD : Adios}.

(** ** The constructor, forwards *)





(** ** The accessors on an oil the constructor built *)

(** X3. On an oil the constructor built, the guard never raises
    [NotFullOil]: if the parsed oil is GNOME-suitable the accessor is the
    function under the decorator, and if it is not the accessor raises
    [AttributeError] for [gnome_oil]. *)
Theorem constructed_oil_guard (o : json) (self : instance) :
  OpendriftOil_call o = Return self →
  ∃ oil,
    py_dict self !! "oil" = Some (VOil oil) ∧
    ∀ a, invoke a self =
         if metadata_gnome_suitable oil then wrapped a self
         else (Raise (AttributeError "gnome_oil"), self).
Proof.
  intros Hcall.
  destruct (OpendriftOil_call_oil _ _ Hcall)
    as (data & attributes & oil & _ & _ & _ & Hoil & _).
  exists oil. split; [done|]. intros a.
  destruct (metadata_gnome_suitable oil) eqn:Hsuit.
  - destruct (OpendriftOil_call_suitable _ _ _ Hcall Hoil Hsuit)
      as (g & _ & Hg).
    by apply (invoke_dict _ _ g).
  - by apply (unsuitable_invoke o self oil).
Qed.

Lemma OpendriftOil_call_parsed (o data attributes : json) (self : instance)
    (oil : AdiosOil) :
  OpendriftOil_call o = Return self →
  subscript o "data" = Return data →
  subscript data "attributes" = Return attributes →
  from_py_json attributes = Return oil →
  py_dict self !! "oil" = Some (VOil oil).
Proof.
  intros Hcall Hdata Hattr Hoil.
  destruct (OpendriftOil_call_oil _ _ Hcall)
    as (data' & attributes' & oil' & Hdata' & Hattr' & Hoil' & Hself & _).
  congruence.
Qed.

(** X4. On a GNOME-suitable oil built from the record [o],
    [density_at_temp] and [kvis_at_temp] are the density and viscosity
    models on the oil the parser made of [o['data']['attributes']], with the
    temperature and the unit passed on as given; what the models return or
    raise is the result, and the GNOME dictionary plays no part. *)
Theorem constructed_oil_density (o data attributes : json) (self : instance)
    (oil : AdiosOil) :
  OpendriftOil_call o = Return self →
  subscript o "data" = Return data →
  subscript data "attributes" = Return attributes →
  from_py_json attributes = Return oil →
  metadata_gnome_suitable oil = true →
  ∀ t unit,
    density_at_temp t unit self = (Density_at_temp oil t unit, self) ∧
    kvis_at_temp t unit self = (KinematicViscosity_at_temp oil t unit, self).
Proof.
  intros Hcall Hdata Hattr Hparse Hsuit t unit.
  pose proof (OpendriftOil_call_parsed _ _ _ _ _ Hcall Hdata Hattr Hparse)
    as Hoil.
  destruct (OpendriftOil_call_suitable _ _ _ Hcall Hoil Hsuit) as (g & _ & Hg).
  unfold density_at_temp, kvis_at_temp.
  rewrite !(require_dict _ _ _ Hg).
  unfold density_at_temp_wrapped, kvis_at_temp_wrapped.
  by rewrite !(run_getattr_oil_bind _ _ _ Hoil).
Qed.

Lemma run_gnome_oil_item_subscript (key : string) (self : instance)
    (g : gmap string gval) :
  py_dict self !! "gnome_oil" = Some (VDict g) →
  gnome_oil_item key self = (gnome_subscript g key, self).
Proof. apply run_gnome_oil_item. Qed.

(** X5. On a GNOME-suitable oil built from the record [o], the accessors
    serve the dictionary [g] that the conversion returned for the parsed
    oil: [bulltime] is [g['bullwinkle_time']], [bullwinkle] is
    [g['bullwinkle_fraction']], [emulsion_water_fraction_max],
    [molecular_weight] and [k0y] are the entries of their own names,
    [mass_fraction] is [g['mass_fraction']] as an array and
    [oil_water_surface_tension] is the correlation on [g['api']]; an entry
    that is missing raises [KeyError] with its key. *)
Theorem constructed_oil_serves_conversion (o data attributes : json)
    (self : instance) (oil : AdiosOil) (g : gmap string gval) :
  OpendriftOil_call o = Return self →
  subscript o "data" = Return data →
  subscript data "attributes" = Return attributes →
  from_py_json attributes = Return oil →
  metadata_gnome_suitable oil = true →
  make_gnome_oil oil = Return g →
  bulltime self = (gnome_subscript g "bullwinkle_time", self) ∧
  bullwinkle self = (gnome_subscript g "bullwinkle_fraction", self) ∧
  emulsion_water_fraction_max self =
    (gnome_subscript g "emulsion_water_fraction_max", self) ∧
  molecular_weight self = (gnome_subscript g "molecular_weight", self) ∧
  k0y self = (gnome_subscript g "k0y", self) ∧
  mass_fraction self =
    (v ← gnome_subscript g "mass_fraction"; Return (np_asarray v), self) ∧
  oil_water_surface_tension self =
    (gnome_subscript g "api" ≫= oil_water_surface_tension_from_api, self).
Proof.
  intros Hcall Hdata Hattr Hparse Hsuit Hconv.
  pose proof (OpendriftOil_call_parsed _ _ _ _ _ Hcall Hdata Hattr Hparse)
    as Hoil.
  destruct (OpendriftOil_call_suitable _ _ _ Hcall Hoil Hsuit)
    as (g' & Hconv' & Hg).
  assert (g' = g) as -> by congruence.
  unfold bulltime, bullwinkle, emulsion_water_fraction_max, molecular_weight,
    k0y, mass_fraction, oil_water_surface_tension.
  rewrite !(require_dict _ _ _ Hg).
  unfold mass_fraction_wrapped, oil_water_surface_tension_wrapped.
  rewrite !run_bind, !(run_gnome_oil_item_subscript _ _ _ Hg).
  repeat split.
  - by destruct (gnome_subscript g "mass_fraction").
  - by destruct (gnome_subscript g "api").
Qed.

(** ** What the accessors depend on *)

Lemma oil_only_ret {A} (a : A) : oil_only (mret a).
Proof. by intros self1 self2 _. Qed.

Lemma oil_only_raise {A} (e : exn) : oil_only (raise (A:=A) e).
Proof. by intros self1 self2 _. Qed.

Lemma oil_only_lift {A} (r : result A) : oil_only (lift r).
Proof. by intros self1 self2 _. Qed.

Lemma oil_only_getattr_oil_attr : oil_only (getattr "oil").
Proof. intros self1 self2 [Hoil _]. unfold getattr. rewrite Hoil.
  by destruct (py_dict self2 !! "oil"). Qed.

Lemma oil_only_getattr_gnome_oil : oil_only (getattr "gnome_oil").
Proof. intros self1 self2 [_ Hg]. unfold getattr. rewrite Hg.
  by destruct (py_dict self2 !! "gnome_oil"). Qed.

Lemma oil_only_bind {A B} (m : M A) (k : A → M B) :
  readonly m → oil_only m → (∀ a, oil_only (k a)) → oil_only (m ≫= k).
Proof.
  intros Hro Hm Hk self1 self2 Hsame. rewrite !run_bind.
  pose proof (Hm _ _ Hsame) as Hres.
  pose proof (Hro self1) as H1. pose proof (Hro self2) as H2.
  destruct (m self1) as [r1 s1], (m self2) as [r2 s2].
  cbn [fst snd] in *. subst.
  destruct r2; [by apply Hk | done].
Qed.

Lemma oil_only_fmap {A B} (f : A → B) (m : M A) :
  readonly m → oil_only m → oil_only (f <$> m).
Proof.
  intros Hro Hm. apply oil_only_bind; [done..|].
  intros a. apply oil_only_ret.
Qed.

Create HintDb oil_only.
#[local] Hint Resolve oil_only_ret oil_only_raise oil_only_lift
  oil_only_getattr_oil_attr oil_only_getattr_gnome_oil
  readonly_getattr readonly_ret readonly_raise readonly_lift
  readonly_bind : oil_only.

Lemma oil_only_getattr_oil : oil_only getattr_oil.
Proof.
  unfold getattr_oil. apply oil_only_bind; [auto with oil_only..|].
  intros [j|o|g]; auto with oil_only.
Qed.

Lemma oil_only_gnome_oil_item (key : string) : oil_only (gnome_oil_item key).
Proof.
  unfold gnome_oil_item. apply oil_only_bind; [auto with oil_only..|].
  intros [j|o|g]; auto with oil_only. destruct (g !! key); auto with oil_only.
Qed.

Lemma oil_only_require {A} (f : M A) :
  oil_only f → oil_only (__require_gnome_oil__ f).
Proof.
  intros Hf. unfold __require_gnome_oil__.
  apply oil_only_bind; [auto with oil_only..|].
  intros [[]|o|g]; auto with oil_only.
Qed.

Lemma oil_only_wrapped (a : accessor) : oil_only (wrapped a).
Proof.
  pose proof readonly_getattr_oil. pose proof readonly_gnome_oil_item.
  pose proof oil_only_getattr_oil. pose proof oil_only_gnome_oil_item.
  destruct a; simpl; apply oil_only_fmap;
    try apply readonly_vapor_pressure_wrapped;
    unfold density_at_temp_wrapped, kvis_at_temp_wrapped,
      mass_fraction_wrapped, oil_water_surface_tension_wrapped,
      vapor_pressure_wrapped;
    repeat first
      [ done
      | apply readonly_bind; [done|intros ?]
      | apply oil_only_bind; [auto with oil_only..|intros ?] ];
    auto with oil_only.
Qed.

(** X6. The result of an accessor depends on the object through its [oil]
    and [gnome_oil] attributes alone: on two objects that agree on these two
    attributes every accessor returns the same value or raises the same
    exception, whatever their [id], [name], [data] or other attributes are. *)
Theorem accessors_read_oil_and_gnome_oil_only (self1 self2 : instance) :
  py_dict self1 !! "oil" = py_dict self2 !! "oil" →
  py_dict self1 !! "gnome_oil" = py_dict self2 !! "gnome_oil" →
  ∀ a, (invoke a self1).1 = (invoke a self2).1.
Proof.
  intros Hoil Hg a. rewrite !invoke_guard.
  by apply (oil_only_require _ (oil_only_wrapped a)).
Qed.

(** ** More on the vapour pressure *)


Lemma sub_diag_finite (x : float) :
  non_finite x = false → (x - x)%float = 0%float.
Proof.
  rewrite non_finite_spec. intros Hx. apply Prim2SF_inj.
  rewrite sub_spec. unfold SF64sub.
  change (Prim2SF 0) with (S754_zero false).
  destruct (Prim2SF x) as [s|s| |s m e]; try done.
  - by destruct s.
  - cbn [SFsub]. cbn zeta. by rewrite Z.sub_diag.
Qed.

Lemma mul_zero_finite (q : float) :
  non_finite q = false →
  (q * 0)%float = 0%float ∨ (q * 0)%float = neg_zero.
Proof.
  rewrite non_finite_spec. intros Hq.
  assert (Prim2SF (q * 0) = S754_zero false ∨
          Prim2SF (q * 0) = S754_zero true) as [Hz|Hz].
  { rewrite mul_spec. unfold SF64mul.
    change (Prim2SF 0) with (S754_zero false).
    destruct (Prim2SF q) as [s|s| |s m e]; try done; destruct s; auto. }
  - left. by apply Prim2SF_inj.
  - right. by apply Prim2SF_inj.
Qed.

(** At the boiling point of a component the two reciprocals cancel, the
    exponent is a zero and the closed form is the atmospheric pressure. *)
Lemma Pi_closed_form_at_boiling_point (b : float) :
  np_exp 0 = 1%float →
  np_exp neg_zero = 1%float →
  non_finite (1 / (b - C_2i_of b)) = false →
  non_finite ((8.75 + 1.987 * np_log b)
              * ((b - C_2i_of b) * (b - C_2i_of b))
              / (0.97 * 1.987 * b)) = false →
  Pi_closed_form b b = 101325%float.
Proof.
  intros Hexp Hexp' Hvar Hq. unfold Pi_closed_form. cbn zeta.
  fold (C_2i_of b). rewrite (sub_diag_finite _ Hvar).
  destruct (mul_zero_finite _ Hq) as [-> | ->].
  - by rewrite Hexp.
  - by rewrite Hexp'.
Qed.

(** X8. At a temperature equal to the boiling point of a component,
    [vapor_pressure] returns the atmospheric pressure, [101325.0], for that
    component: provided [np.exp] maps both zeros to one and the component is
    an ordinary one, whose reciprocal [1 / (b - C_2i)] and whose coefficient
    of the exponent are finite numbers. *)
Theorem vapor_pressure_at_boiling_point (self : instance)
    (g : gmap string gval) (bs : list float) (i : nat) (b : float) :
  py_dict self !! "gnome_oil" = Some (VDict g) →
  g !! "boiling_point" = Some (GSeq bs) →
  bs !! i = Some b →
  np_exp 0 = 1%float →
  np_exp neg_zero = 1%float →
  non_finite (1 / (b - C_2i_of b)) = false →
  non_finite ((8.75 + 1.987 * np_log b)
              * ((b - C_2i_of b) * (b - C_2i_of b))
              / (0.97 * 1.987 * b)) = false →
  ∃ Pi, vapor_pressure b self = (Return (Arr1 Pi), self) ∧
        Pi !! i = Some 101325%float.
Proof.
  intros Hg Hbs Hi Hexp Hexp' Hvar Hq.
  exists (Pi_closed_form b <$> bs). split.
  - unfold vapor_pressure. rewrite (require_dict _ _ _ Hg).
    by apply (vapor_pressure_wrapped_fmap _ _ g).
  - rewrite list_lookup_fmap, Hi. cbn [fmap option_fmap option_map].
    by rewrite Pi_closed_form_at_boiling_point.
Qed.

(** ** More on [ThinOil] *)

Ltac lookup_inserts :=
  repeat first
    [ rewrite lookup_insert_eq
    | rewrite lookup_insert_ne by done
    | rewrite lookup_empty ].

Lemma ThinOil_call_fields (a0 a1 : json) (kwargs : gmap string json) :
  dom kwargs = listing_metadata_fields →
  ThinOil_call [a0; a1] kwargs =
  Return (Instance ThinOil
            (<["id" := VJson a0]> (<["type" := VJson a1]> (VJson <$> kwargs)))).
Proof.
  intros Hdom.
  assert (∀ k, k ∈ listing_metadata_fields → is_Some (kwargs !! k)) as Hk.
  { intros k Hin. apply elem_of_dom. by rewrite Hdom. }
  unfold listing_metadata_fields in Hk.
  destruct (Hk "name") as [a2 H2]; [set_solver|].
  destruct (Hk "API") as [a3 H3]; [set_solver|].
  destruct (Hk "gnome_suitable") as [a4 H4]; [set_solver|].
  destruct (Hk "labels") as [a5 H5]; [set_solver|].
  destruct (Hk "location") as [a6 H6]; [set_solver|].
  destruct (Hk "model_completeness") as [a7 H7]; [set_solver|].
  destruct (Hk "product_type") as [a8 H8]; [set_solver|].
  destruct (Hk "sample_date") as [a9 H9]; [set_solver|].
  unfold ThinOil_call, bind_args.
  rewrite bool_decide_eq_false_2 by (simpl; lia).
  rewrite bool_decide_eq_true_2
    by (rewrite Hdom, listing_metadata_fields_params; done).
  simpl. rewrite H2, H3, H4, H5, H6, H7, H8, H9. simpl.
  rewrite ThinOil_new. do 2 f_equal. apply map_eq. intros k.
  destruct (decide (k = "id")) as [->|];
    [by lookup_inserts|].
  destruct (decide (k = "type")) as [->|];
    [by lookup_inserts|].
  destruct (decide (k = "name")) as [->|];
    [lookup_inserts; by rewrite lookup_fmap, H2|].
  destruct (decide (k = "API")) as [->|];
    [lookup_inserts; by rewrite lookup_fmap, H3|].
  destruct (decide (k = "gnome_suitable")) as [->|];
    [lookup_inserts; by rewrite lookup_fmap, H4|].
  destruct (decide (k = "labels")) as [->|];
    [lookup_inserts; by rewrite lookup_fmap, H5|].
  destruct (decide (k = "location")) as [->|];
    [lookup_inserts; by rewrite lookup_fmap, H6|].
  destruct (decide (k = "model_completeness")) as [->|];
    [lookup_inserts; by rewrite lookup_fmap, H7|].
  destruct (decide (k = "product_type")) as [->|];
    [lookup_inserts; by rewrite lookup_fmap, H8|].
  destruct (decide (k = "sample_date")) as [->|];
    [lookup_inserts; by rewrite lookup_fmap, H9|].
  lookup_inserts. rewrite lookup_fmap.
  assert (kwargs !! k = None) as ->; [|done].
  apply not_elem_of_dom. rewrite Hdom. unfold listing_metadata_fields.
  rewrite !not_elem_of_union, !not_elem_of_singleton. by repeat split.
Qed.

Lemma ThinOil_from_json_inv (d : json) (self : instance) :
  ThinOil_from_json d = Return self →
  ∃ dm am md _id _type,
    d = JObj dm ∧
    dm !! "_id" = Some _id ∧
    dm !! "type" = Some _type ∧
    dm !! "attributes" = Some (JObj am) ∧
    am !! "metadata" = Some (JObj md) ∧
    dom md = listing_metadata_fields ∧
    self = Instance ThinOil
             (<["id" := VJson _id]> (<["type" := VJson _type]> (VJson <$> md))).
Proof.
  unfold ThinOil_from_json. destruct d as [| | | | | |dm]; try done.
  cbn [subscript mbind result_bind].
  destruct (dm !! "_id") as [_id|] eqn:Hid; [|done].
  destruct (dm !! "type") as [_type|] eqn:Htype; [|done].
  destruct (dm !! "attributes") as [[| | | | | |am]|] eqn:Hattr; try done.
  cbn [subscript mbind result_bind].
  destruct (am !! "metadata") as [[| | | | | |md]|] eqn:Hmeta; try done.
  cbn [kwargs_of mbind result_bind].
  destruct (decide (dom md = listing_metadata_fields)) as [Hdom|Hdom].
  - rewrite (ThinOil_call_fields _ _ _ Hdom). intros [= <-].
    by exists dm, am, md, _id, _type.
  - by rewrite (ThinOil_call_invalid _ _ _ Hdom).
Qed.

(** X9. [ThinOil.from_json(d)] returns an object exactly when [d] is a
    mapping with ['_id'], ['type'] and ['attributes'], the latter a mapping
    whose ['metadata'] is a mapping with exactly the eight recognised keys.
    The attributes of the object are then the entries of the metadata,
    under their own names and unchanged, together with [id] and [type]:
    these ten and no other; the values are not inspected. *)
Theorem ThinOil_from_json_Return_iff (d : json) (self : instance) :
  ThinOil_from_json d = Return self ↔
  ∃ dm am md _id _type,
    d = JObj dm ∧
    dm !! "_id" = Some _id ∧
    dm !! "type" = Some _type ∧
    dm !! "attributes" = Some (JObj am) ∧
    am !! "metadata" = Some (JObj md) ∧
    dom md = listing_metadata_fields ∧
    self = Instance ThinOil
             (<["id" := VJson _id]> (<["type" := VJson _type]> (VJson <$> md))).
Proof.
  split; [apply ThinOil_from_json_inv|].
  intros (dm & am & md & _id & _type
          & -> & Hid & Htype & Hattr & Hmeta & Hdom & ->).
  unfold ThinOil_from_json. cbn [subscript mbind result_bind].
  rewrite Hid, Htype, Hattr. cbn [subscript mbind result_bind].
  rewrite Hmeta. cbn [kwargs_of mbind result_bind].
  by apply ThinOil_call_fields.
Qed.

(** X10. When [ThinOil.from_json(d)] fails, it fails with [KeyError] for
    the first of ['_id'], ['type'], ['attributes'], ['metadata'] that is
    missing, or with [TypeError]: for a value that is not a mapping where
    one is read, or for metadata whose keys are not the eight parameters of
    the constructor. *)
Theorem ThinOil_from_json_Raise (d : json) (e : exn) :
  ThinOil_from_json d = Raise e →
  e = TypeError ∨ e = KeyError "_id" ∨ e = KeyError "type" ∨
  e = KeyError "attributes" ∨ e = KeyError "metadata".
Proof.
  unfold ThinOil_from_json.
  destruct d as [| | | | | |dm]; try (intros [= <-]; by auto).
  cbn [subscript mbind result_bind].
  destruct (dm !! "_id") as [_id|]; [|intros [= <-]; by auto].
  destruct (dm !! "type") as [_type|]; [|intros [= <-]; by auto].
  destruct (dm !! "attributes") as [[| | | | | |am]|];
    try (intros [= <-]; by auto 6).
  cbn [subscript mbind result_bind].
  destruct (am !! "metadata") as [[| | | | | |md]|];
    try (intros [= <-]; by auto 6).
  cbn [kwargs_of mbind result_bind].
  destruct (decide (dom md = listing_metadata_fields)) as [Hdom|Hdom].
  - by rewrite (ThinOil_call_fields _ _ _ Hdom).
  - rewrite (ThinOil_call_invalid _ _ _ Hdom). intros [= <-]. by auto.
Qed.

Lemma existsb_JStr (sub : string) (l : list json) :
  existsb (λ x, match x with
                | JStr s => bool_decide (s = sub)
                | _ => false
                end) l = true ↔ JStr sub ∈ l.
Proof.
  induction l as [|x l IH]; simpl.
  - split; [done | by intros ?%elem_of_nil].
  - rewrite orb_true_iff, IH, elem_of_cons. split.
    + intros [Hx|?]; [|by right]. left.
      destruct x; try done. by apply bool_decide_eq_true in Hx as ->.
    + intros [<-|?]; [|by right]. left. by apply bool_decide_eq_true.
Qed.

(** X11. [is_generic] does not require the name to be a string.  Without a
    [name] attribute it raises [AttributeError]; on a name that is [None], a
    boolean or a number it raises [TypeError]; on a name that is a list it
    tests whether ["GENERIC"] is an element of the list, so that the list of
    the one string ["GENERIC CRUDE"] is not generic. *)
Theorem is_generic_other_names (self : instance) :
  (py_dict self !! "name" = None →
     is_generic self = (Raise (AttributeError "name"), self)) ∧
  (∀ j, py_dict self !! "name" = Some (VJson j) →
     match j with
     | JNull | JBool _ | JInt _ | JFloat _ =>
         is_generic self = (Raise TypeError, self)
     | JArr l =>
         ∃ b, is_generic self = (Return b, self) ∧
              (b = true ↔ JStr "GENERIC" ∈ l)
     | _ => True
     end) ∧
  (py_dict self !! "name" = Some (VJson (JArr [JStr "GENERIC CRUDE"])) →
     is_generic self = (Return false, self)).
Proof.
  unfold is_generic. repeat split.
  - intros Hname. by rewrite run_bind, (run_getattr_unset _ _ Hname).
  - intros j Hname. rewrite run_bind, (run_getattr _ _ _ Hname).
    destruct j as [| | | | |l|]; try done.
    eexists. split; [reflexivity|]. apply existsb_JStr.
  - intros Hname. by rewrite run_bind, (run_getattr _ _ _ Hname).
Qed.

(** X12. An [OpendriftOil] inherits [is_generic]: on the oil built from
    the record [o], with a name that is a string, it returns whether
    ["GENERIC"] is a substring of [o['data']['attributes']['metadata']['name']],
    whether or not the oil is GNOME-suitable. *)
Theorem constructed_oil_is_generic (o data attributes meta : json)
    (self : instance) (s : string) :
  OpendriftOil_call o = Return self →
  subscript o "data" = Return data →
  subscript data "attributes" = Return attributes →
  subscript attributes "metadata" = Return meta →
  subscript meta "name" = Return (JStr s) →
  ∃ b, is_generic self = (Return b, self) ∧
       (b = true ↔ substring "GENERIC" s).
Proof.
  intros Hcall Hdata Hattr Hmeta Hname.
  destruct (OpendriftOil_call_inv _ _ Hcall)
    as (data' & attributes' & meta' & _id & name & oil
        & Hdata' & Hattr' & Hmeta' & _ & Hname' & _ & _ & Hdict).
  assert (name = JStr s) as -> by congruence.
  assert (py_dict self !! "name" = Some (VJson (JStr s))) as Hself.
  { cbn zeta in Hdict. destruct (metadata_gnome_suitable oil).
    - destruct Hdict as (g & _ & ->). by lookup_inserts.
    - rewrite Hdict. by lookup_inserts. }
  exists (str_contains "GENERIC" s). split; [|apply str_contains_spec].
  unfold is_generic. by rewrite run_bind, (run_getattr _ _ _ Hself).
Qed.

End Further.

(** ** String representation and upgrade *)

Section Printing.
Context {AD : Adios} {BI : Builtins} {API : Api}.

Ltac lookup_inserts :=
  repeat first
    [ rewrite lookup_insert_eq
    | rewrite lookup_insert_ne by done
    | rewrite lookup_empty ].

(** What [from_json] leaves in [id] and [name]. *)
Lemma ThinOil_from_json_id_name (d : json) (self : instance)
    (_id name : json) :
  ThinOil_from_json d = Return self →
  subscript d "_id" = Return _id →
  (attributes ← subscript d "attributes";
   metadata ← subscript attributes "metadata";
   subscript metadata "name") = Return name →
  py_class self = ThinOil ∧
  py_dict self !! "id" = Some (VJson _id) ∧
  py_dict self !! "name" = Some (VJson name).
Proof.
  intros Hjson Hid Hname.
  destruct (ThinOil_from_json_inv _ _ Hjson)
    as (dm & am & md & _id' & _type
        & -> & Hid' & Htype & Hattr & Hmeta & Hdom & ->).
  cbn [subscript mbind result_bind] in Hid, Hname.
  rewrite Hid' in Hid. rewrite Hattr in Hname.
  cbn [subscript mbind result_bind] in Hname. rewrite Hmeta in Hname.
  cbn [subscript mbind result_bind] in Hname.
  injection Hid as <-.
  destruct (md !! "name") as [name'|] eqn:Hmd; [|done].
  injection Hname as <-.
  cbn [py_class py_dict]. split; [done|]. split; lookup_inserts; [done|].
  by rewrite lookup_fmap, Hmd.
Qed.

(** What the constructor leaves in [id] and [name]. *)
Lemma OpendriftOil_call_id_name (o data attributes meta : json)
    (self : instance) (_id name : json) :
  OpendriftOil_call o = Return self →
  subscript o "data" = Return data →
  subscript data "_id" = Return _id →
  subscript data "attributes" = Return attributes →
  subscript attributes "metadata" = Return meta →
  subscript meta "name" = Return name →
  py_class self = OpendriftOil ∧
  py_dict self !! "id" = Some (VJson _id) ∧
  py_dict self !! "name" = Some (VJson name).
Proof.
  intros Hcall Hdata Hid Hattr Hmeta Hname.
  destruct (OpendriftOil_call_inv _ _ Hcall)
    as (data' & attributes' & meta' & _id' & name' & oil
        & Hdata' & Hattr' & Hmeta' & Hid' & Hname' & _ & Hclass & Hdict).
  assert (data' = data) as -> by congruence.
  assert (attributes' = attributes) as -> by congruence.
  assert (meta' = meta) as -> by congruence.
  assert (_id' = _id) as -> by congruence.
  assert (name' = name) as -> by congruence.
  split; [done|]. cbn zeta in Hdict.
  destruct (metadata_gnome_suitable oil).
  - destruct Hdict as (g & _ & ->). split; by lookup_inserts.
  - rewrite Hdict. split; by lookup_inserts.
Qed.

Lemma run_repr (self : instance) (id name : pyval) :
  py_dict self !! "id" = Some id →
  py_dict self !! "name" = Some name →
  repr self =
  (Return ((match py_class self with
            | ThinOil => "[<adios.ThinOil> "
            | OpendriftOil => "[<adios.Oil> "
            end) +:+ py_str id +:+ "] " +:+ py_str name), self).
Proof.
  intros Hid Hname. unfold repr, ThinOil_repr, OpendriftOil_repr.
  destruct (py_class self);
    rewrite run_bind, (run_getattr _ _ _ Hid); cbv beta iota;
    by rewrite run_bind, (run_getattr _ _ _ Hname).
Qed.

(** X13. The [repr] of the object that [ThinOil.from_json(d)] returns is
    ["[<adios.ThinOil> "], [str(d['_id'])], ["] "] and the [str] of the name
    in the metadata, one after the other; for an identifier and a name that
    are strings these are the strings themselves.  It raises nothing and
    leaves the object as it is. *)
Theorem repr_of_from_json (d : json) (self : instance) (_id name : json) :
  ThinOil_from_json d = Return self →
  subscript d "_id" = Return _id →
  (attributes ← subscript d "attributes";
   metadata ← subscript attributes "metadata";
   subscript metadata "name") = Return name →
  repr self =
    (Return ("[<adios.ThinOil> " +:+ py_str (VJson _id) +:+ "] "
             +:+ py_str (VJson name)), self) ∧
  ∀ i n, _id = JStr i → name = JStr n →
    repr self = (Return ("[<adios.ThinOil> " +:+ i +:+ "] " +:+ n), self).
Proof.
  intros Hjson Hid Hname.
  destruct (ThinOil_from_json_id_name _ _ _ _ Hjson Hid Hname)
    as (Hclass & Hsid & Hsname).
  rewrite (run_repr _ _ _ Hsid Hsname), Hclass. split; [done|].
  intros i n -> ->. by rewrite !py_str_JStr.
Qed.

(** X14. [OpendriftOil] overrides [__repr__]: the [repr] of the oil built
    from the record [o] is ["[<adios.Oil> "], [str(o['data']['_id'])],
    ["] "] and the [str] of the name in the metadata, for a GNOME-suitable
    oil and for one that is not; it raises nothing and leaves the object as
    it is. *)
Theorem repr_of_OpendriftOil (o data attributes meta : json)
    (self : instance) (_id name : json) :
  OpendriftOil_call o = Return self →
  subscript o "data" = Return data →
  subscript data "_id" = Return _id →
  subscript data "attributes" = Return attributes →
  subscript attributes "metadata" = Return meta →
  subscript meta "name" = Return name →
  repr self =
    (Return ("[<adios.Oil> " +:+ py_str (VJson _id) +:+ "] "
             +:+ py_str (VJson name)), self) ∧
  ∀ i n, _id = JStr i → name = JStr n →
    repr self = (Return ("[<adios.Oil> " +:+ i +:+ "] " +:+ n), self).
Proof.
  intros Hcall Hdata Hid Hattr Hmeta Hname.
  destruct (OpendriftOil_call_id_name _ _ _ _ _ _ _
              Hcall Hdata Hid Hattr Hmeta Hname) as (Hclass & Hsid & Hsname).
  rewrite (run_repr _ _ _ Hsid Hsname), Hclass. split; [done|].
  intros i n -> ->. by rewrite !py_str_JStr.
Qed.

(** X15. [ThinOil.from_json(d).make_full()] is the fetch of [d['_id']]:
    the identifier goes to [api.get_full_oil_from_id] as it was read, what
    the fetch returns or raises is the result, and the [ThinOil] is left as
    it is. *)
Theorem make_full_of_from_json (d : json) (self : instance) (_id : json) :
  ThinOil_from_json d = Return self →
  subscript d "_id" = Return _id →
  make_full self = (get_full_oil_from_id (VJson _id), self).
Proof.
  intros Hjson Hid.
  destruct (ThinOil_from_json_inv _ _ Hjson)
    as (dm & am & md & _id' & _type
        & -> & Hid' & Htype & Hattr & Hmeta & Hdom & ->).
  cbn [subscript] in Hid. rewrite Hid' in Hid. injection Hid as <-.
  assert (py_dict (Instance ThinOil
                     (<["id" := VJson _id']>
                        (<["type" := VJson _type]> (VJson <$> md))))
            !! "id" = Some (VJson _id')) as Hsid
    by (cbn [py_dict]; by lookup_inserts).
  unfold make_full. by rewrite run_bind, (run_getattr _ _ _ Hsid).
Qed.

End Printing.

(** ** The further properties on the example records *)


Lemma constructed_oil_guard_witness :
  ∃ oil : AdiosOil (Adios:=reference_adios),
    py_dict (example_oil "GENERIC CRUDE" true) !! "oil" = Some (VOil oil) ∧
    ∀ a, invoke (NP:=reference_numpy) (AD:=reference_adios) a
           (example_oil "GENERIC CRUDE" true) =
         if metadata_gnome_suitable (Adios:=reference_adios) oil
         then wrapped (NP:=reference_numpy) a
                (example_oil "GENERIC CRUDE" true)
         else (Raise (AttributeError "gnome_oil"),
               example_oil "GENERIC CRUDE" true).
Proof.
  apply (constructed_oil_guard (NP:=reference_numpy) (AD:=reference_adios)
           (example_record "GENERIC CRUDE" true)).
  apply OpendriftOil_call_example.
Defined.

Lemma constructed_oil_density_witness :
  density_at_temp 288.15 "K" (example_oil "GENERIC CRUDE" true) =
    (Density_at_temp (Adios:=reference_adios)
       (JObj (example_attributes "GENERIC CRUDE" true)) 288.15 "K",
     example_oil "GENERIC CRUDE" true) ∧
  kvis_at_temp 288.15 "K" (example_oil "GENERIC CRUDE" true) =
    (KinematicViscosity_at_temp (Adios:=reference_adios)
       (JObj (example_attributes "GENERIC CRUDE" true)) 288.15 "K",
     example_oil "GENERIC CRUDE" true).
Proof.
  apply (constructed_oil_density (AD:=reference_adios)
           (example_record "GENERIC CRUDE" true)
           (example_listing "GENERIC CRUDE" true)
           (JObj (example_attributes "GENERIC CRUDE" true))
           (example_oil "GENERIC CRUDE" true)
           (JObj (example_attributes "GENERIC CRUDE" true))).
  - apply OpendriftOil_call_example.
  - vm_refl.
  - vm_refl.
  - vm_refl.
  - vm_refl.
Defined.

Lemma constructed_oil_serves_conversion_witness :
  bulltime (example_oil "GENERIC CRUDE" true) =
    (gnome_subscript reference_gnome_oil "bullwinkle_time",
     example_oil "GENERIC CRUDE" true) ∧
  bullwinkle (example_oil "GENERIC CRUDE" true) =
    (gnome_subscript reference_gnome_oil "bullwinkle_fraction",
     example_oil "GENERIC CRUDE" true) ∧
  emulsion_water_fraction_max (example_oil "GENERIC CRUDE" true) =
    (gnome_subscript reference_gnome_oil "emulsion_water_fraction_max",
     example_oil "GENERIC CRUDE" true) ∧
  molecular_weight (example_oil "GENERIC CRUDE" true) =
    (gnome_subscript reference_gnome_oil "molecular_weight",
     example_oil "GENERIC CRUDE" true) ∧
  k0y (example_oil "GENERIC CRUDE" true) =
    (gnome_subscript reference_gnome_oil "k0y",
     example_oil "GENERIC CRUDE" true) ∧
  mass_fraction (example_oil "GENERIC CRUDE" true) =
    (v ← gnome_subscript reference_gnome_oil "mass_fraction";
     Return (np_asarray v), example_oil "GENERIC CRUDE" true) ∧
  oil_water_surface_tension (example_oil "GENERIC CRUDE" true) =
    (gnome_subscript reference_gnome_oil "api"
       ≫= oil_water_surface_tension_from_api (Adios:=reference_adios),
     example_oil "GENERIC CRUDE" true).
Proof.
  apply (constructed_oil_serves_conversion (AD:=reference_adios)
           (example_record "GENERIC CRUDE" true)
           (example_listing "GENERIC CRUDE" true)
           (JObj (example_attributes "GENERIC CRUDE" true))
           (example_oil "GENERIC CRUDE" true)
           (JObj (example_attributes "GENERIC CRUDE" true))
           reference_gnome_oil).
  - apply OpendriftOil_call_example.
  - vm_refl.
  - vm_refl.
  - vm_refl.
  - vm_refl.
  - vm_refl.
Defined.

Lemma accessors_read_oil_and_gnome_oil_only_witness :
  (invoke (NP:=reference_numpy) (A_vapor_pressure 350)
     (example_oil "GENERIC CRUDE" true)).1
  = (invoke (NP:=reference_numpy) (A_vapor_pressure 350) relabelled_oil).1.
Proof.
  apply (accessors_read_oil_and_gnome_oil_only
           (NP:=reference_numpy) (AD:=reference_adios)
           (example_oil "GENERIC CRUDE" true) relabelled_oil);
    vm_refl.
Defined.


(** The oil without boiling points, and the oil of one component at its
    boiling point. *)
Example vapor_pressure_examples :
  (vapor_pressure (NP:=reference_numpy) 350
     (oil_of_gnome_oil same_api_gnome_oil)).1
    = Raise (KeyError "boiling_point") ∧
  (vapor_pressure (NP:=reference_numpy) 400
     (oil_of_gnome_oil single_component_gnome_oil)).1
    = Return (Arr1 [101325%float]).
Proof. split; vm_refl. Qed.

Lemma vapor_pressure_at_boiling_point_witness :
  ∃ Pi,
    vapor_pressure (NP:=reference_numpy) 400
      (oil_of_gnome_oil single_component_gnome_oil)
    = (Return (Arr1 Pi), oil_of_gnome_oil single_component_gnome_oil) ∧
    Pi !! 0 = Some 101325%float.
Proof.
  apply (vapor_pressure_at_boiling_point
           (NP:=reference_numpy) (AD:=reference_adios)
           (oil_of_gnome_oil single_component_gnome_oil)
           single_component_gnome_oil [400%float] 0 400);
    vm_refl.
Defined.

Lemma ThinOil_from_json_Raise_witness :
  KeyError "_id" = TypeError ∨ KeyError "_id" = KeyError "_id" ∨
  KeyError "_id" = KeyError "type" ∨ KeyError "_id" = KeyError "attributes" ∨
  KeyError "_id" = KeyError "metadata".
Proof.
  apply (ThinOil_from_json_Raise (AD:=reference_adios) (JObj ∅)).
  vm_refl.
Defined.

Lemma constructed_oil_is_generic_witness :
  ∃ b, is_generic (example_oil "GENERIC CRUDE" false)
       = (Return b, example_oil "GENERIC CRUDE" false) ∧
       (b = true ↔ substring "GENERIC" "GENERIC CRUDE").
Proof.
  apply (constructed_oil_is_generic (AD:=reference_adios)
           (example_record "GENERIC CRUDE" false)
           (example_listing "GENERIC CRUDE" false)
           (JObj (example_attributes "GENERIC CRUDE" false))
           (JObj (example_metadata "GENERIC CRUDE" false))).
  - apply OpendriftOil_call_example.
  - vm_refl.
  - vm_refl.
  - vm_refl.
  - vm_refl.
Defined.

Lemma repr_of_from_json_witness :
  repr (BI:=reference_builtins) (example_ThinOil "GENERIC CRUDE" true) =
    (Return ("[<adios.ThinOil> "
             +:+ py_str (Builtins:=reference_builtins)
                   (VJson (JStr "NO00108"))
             +:+ "] "
             +:+ py_str (Builtins:=reference_builtins)
                   (VJson (JStr "GENERIC CRUDE"))),
     example_ThinOil "GENERIC CRUDE" true) ∧
  ∀ i n, JStr "NO00108" = JStr i → JStr "GENERIC CRUDE" = JStr n →
    repr (BI:=reference_builtins) (example_ThinOil "GENERIC CRUDE" true) =
      (Return ("[<adios.ThinOil> " +:+ i +:+ "] " +:+ n),
       example_ThinOil "GENERIC CRUDE" true).
Proof.
  apply (repr_of_from_json (AD:=reference_adios) (BI:=reference_builtins)
           (example_listing "GENERIC CRUDE" true)).
  - apply ThinOil_from_json_example.
  - vm_refl.
  - vm_refl.
Defined.

Lemma repr_of_OpendriftOil_witness :
  repr (BI:=reference_builtins) (example_oil "GENERIC CRUDE" false) =
    (Return ("[<adios.Oil> "
             +:+ py_str (Builtins:=reference_builtins)
                   (VJson (JStr "NO00108"))
             +:+ "] "
             +:+ py_str (Builtins:=reference_builtins)
                   (VJson (JStr "GENERIC CRUDE"))),
     example_oil "GENERIC CRUDE" false) ∧
  ∀ i n, JStr "NO00108" = JStr i → JStr "GENERIC CRUDE" = JStr n →
    repr (BI:=reference_builtins) (example_oil "GENERIC CRUDE" false) =
      (Return ("[<adios.Oil> " +:+ i +:+ "] " +:+ n),
       example_oil "GENERIC CRUDE" false).
Proof.
  apply (repr_of_OpendriftOil (AD:=reference_adios) (BI:=reference_builtins)
           (example_record "GENERIC CRUDE" false)
           (example_listing "GENERIC CRUDE" false)
           (JObj (example_attributes "GENERIC CRUDE" false))
           (JObj (example_metadata "GENERIC CRUDE" false))).
  - apply OpendriftOil_call_example.
  - vm_refl.
  - vm_refl.
  - vm_refl.
  - vm_refl.
  - vm_refl.
Defined.

(** The two representations of the example oil, and its upgrade. *)
Example repr_examples :
  (repr (BI:=reference_builtins) (example_ThinOil "GENERIC CRUDE" true)).1
    = Return "[<adios.ThinOil> NO00108] GENERIC CRUDE" ∧
  (repr (BI:=reference_builtins) (example_oil "GENERIC CRUDE" true)).1
    = Return "[<adios.Oil> NO00108] GENERIC CRUDE" ∧
  (make_full (API:=reference_api) (example_ThinOil "GENERIC CRUDE" true)).1
    = Return (example_oil "GENERIC CRUDE" true).
Proof. repeat split; vm_refl. Qed.

Lemma make_full_of_from_json_witness :
  make_full (API:=reference_api) (example_ThinOil "GENERIC CRUDE" true) =
  (get_full_oil_from_id (Api:=reference_api) (VJson (JStr "NO00108")),
   example_ThinOil "GENERIC CRUDE" true).
Proof.
  apply (make_full_of_from_json (AD:=reference_adios) (API:=reference_api)
           (example_listing "GENERIC CRUDE" true)).
  - apply ThinOil_from_json_example.
  - vm_refl.
Defined.


Lemma ThinOil_from_json_Return_iff_witness :
  ∃ dm am md _id _type,
    example_listing "GENERIC CRUDE" true = JObj dm ∧
    dm !! "_id" = Some _id ∧
    dm !! "type" = Some _type ∧
    dm !! "attributes" = Some (JObj am) ∧
    am !! "metadata" = Some (JObj md) ∧
    dom md = listing_metadata_fields ∧
    example_ThinOil "GENERIC CRUDE" true
    = Instance ThinOil
        (<["id" := VJson _id]> (<["type" := VJson _type]> (VJson <$> md))).
Proof.
  apply (proj1 (ThinOil_from_json_Return_iff (AD:=reference_adios)
                  (example_listing "GENERIC CRUDE" true)
                  (example_ThinOil "GENERIC CRUDE" true))).
  apply ThinOil_from_json_example.
Defined.

Lemma is_generic_other_names_witness :
  is_generic (AD:=reference_adios)
    (Instance ThinOil
       (<["name" := VJson (JArr [JStr "GENERIC CRUDE"])]> ∅))
  = (Return false,
     Instance ThinOil
       (<["name" := VJson (JArr [JStr "GENERIC CRUDE"])]> ∅)).
Proof.
  apply (proj2 (proj2 (is_generic_other_names (AD:=reference_adios)
                         (Instance ThinOil
                            (<["name" :=
                                 VJson (JArr [JStr "GENERIC CRUDE"])]> ∅))))).
  vm_refl.
Defined.
